(** * search-demo: the query controller of [App.tsx]

    A shallow embedding of the debounced search controller of the React
    component [SearchApp] (src/src/App.tsx, the variant with the [speed] and
    [dataset] filters, and the earlier four-parameter variants), together with
    the parts of the JavaScript runtime the controller calls:
    [encodeURIComponent], [JSON.parse], the [ToString] and [ToNumber]
    coercions, template-literal rendering of numbers, and lodash's
    trailing-edge [debounce].

    JavaScript strings are modelled as byte strings holding the UTF-8
    encoding of the text, an unpaired surrogate being written with the
    three-byte pattern of its code point; JavaScript numbers are binary64
    floats. *)

From Stdlib Require Import ZArith List Bool Ascii String Lia Floats.
From Stdlib Require Import DecimalString.
Import ListNotations.

#[local] Set Warnings "-register-all,-inexact-float".

Local Open Scope string_scope.
Local Open Scope Z_scope.

(* ================================================================== *)
(** * Characters and strings *)

Module Chars.

Definition code (c : ascii) : Z := Z.of_N (N_of_ascii c).

Definition chr (n : Z) : ascii := ascii_of_N (Z.to_N n).

Definition in_range (lo hi : Z) (c : ascii) : bool :=
  (lo <=? code c) && (code c <=? hi).

Definition is_digit (c : ascii) : bool := in_range 48 57 c.
Definition is_upper (c : ascii) : bool := in_range 65 90 c.
Definition is_lower (c : ascii) : bool := in_range 97 122 c.
Definition is_alnum (c : ascii) : bool := is_digit c || is_upper c || is_lower c.

Definition digit_val (c : ascii) : Z := code c - 48.

(** Value of a hexadecimal digit, if [c] is one. *)
Definition hex_val (c : ascii) : option Z :=
  if is_digit c then Some (code c - 48)
  else if in_range 65 70 c then Some (code c - 55)
  else if in_range 97 102 c then Some (code c - 87)
  else None.

Fixpoint repeat_char (c : ascii) (n : nat) : string :=
  match n with
  | O => EmptyString
  | S n' => String c (repeat_char c n')
  end.

Fixpoint all_chars (p : ascii -> bool) (s : string) : bool :=
  match s with
  | EmptyString => true
  | String c r => p c && all_chars p r
  end.

(** [strip_prefix p s] is [Some r] when [s = p ++ r]. *)
Fixpoint strip_prefix (p s : string) : option string :=
  match p, s with
  | EmptyString, _ => Some s
  | String a p', String b s' => if Ascii.eqb a b then strip_prefix p' s' else None
  | String _ _, EmptyString => None
  end.

Fixpoint rev_append (s acc : string) : string :=
  match s with
  | EmptyString => acc
  | String c r => rev_append r (String c acc)
  end.

Definition rev (s : string) : string := rev_append s EmptyString.

(** The double quote, and a text written between double quotes. *)
Definition dquote : ascii := "034"%char.

Definition quoted (s : string) : string :=
  String dquote (s ++ String dquote EmptyString).

Definition string_of_Z_abs (n : Z) : string :=
  NilZero.string_of_uint (N.to_uint (Z.abs_N n)).

End Chars.

(* ================================================================== *)
(** * JavaScript numbers *)

Module JSNumber.
Import Chars.

(** ** Decimal literals to binary64, correctly rounded

    [SF_of_decimal neg m e10] is the binary64 value nearest to
    [(-1)^neg * m * 10^e10] (ties to even), as the runtime computes it for
    a numeric literal. *)
Definition SF_of_decimal (neg : bool) (m : Z) (e10 : Z) : spec_float :=
  match m with
  | Zpos p =>
      if 400 <? e10 then S754_infinity neg
      else if e10 + (Z.log2 m + 1) / 3 + 1 <? -400 then S754_zero neg
      else if 0 <=? e10 then
        match binary_normalize prec emax (m * 10 ^ e10) 0 false with
        | S754_finite _ m' e' => S754_finite neg m' e'
        | S754_infinity _ => S754_infinity neg
        | S754_zero _ => S754_zero neg
        | S754_nan => S754_nan
        end
      else
        SFdiv prec emax (S754_finite neg p 0)
              (S754_finite false (Z.to_pos (10 ^ (- e10))) 0)
  | _ => S754_zero neg
  end.

Definition of_decimal (neg : bool) (m : Z) (e10 : Z) : float :=
  SF2Prim (SF_of_decimal neg m e10).

Definition of_Z (n : Z) : float := of_decimal (n <? 0) (Z.abs n) 0.

(** ** [Number::toString] (radix 10)

    The value [m * 2^e] is kept as the fraction [num / den]. *)
Definition num_of (m : positive) (e : Z) : Z :=
  if 0 <=? e then Zpos m * 2 ^ e else Zpos m.
Definition den_of (e : Z) : Z :=
  if 0 <=? e then 1 else 2 ^ (- e).

(** [below_pow10 num den n] holds when [num / den < 10^n]. *)
Definition below_pow10 (num den n : Z) : bool :=
  if 0 <=? n then num <? den * 10 ^ n else num * 10 ^ (- n) <? den.

Fixpoint magnitude_from (fuel : nat) (num den n : Z) : Z :=
  match fuel with
  | O => n
  | S fuel' =>
      if below_pow10 num den n then n else magnitude_from fuel' num den (n + 1)
  end.

(** The [n] with [10^(n-1) <= m * 2^e < 10^n]. *)
Definition magnitude (m : positive) (e : Z) : Z :=
  let l := Z.log2 (Zpos m) + e in
  magnitude_from 8 (num_of m e) (den_of e) (l * 30103 / 100000 - 1).

Definition same_finite (x : spec_float) (m : positive) (e : Z) : bool :=
  match x with
  | S754_finite false m' e' => Pos.eqb m m' && Z.eqb e e'
  | _ => false
  end.

(** The candidates with [k] digits nearest to the value: the scaled value
    rounded down and up.  The result is the one that reads back as the
    same float, the nearer one when both do. *)
Definition candidate (m : positive) (e n k : Z) : option Z :=
  let num := num_of m e in
  let den := den_of e in
  let sn := if 0 <=? k - n then num * 10 ^ (k - n) else num in
  let sd := if 0 <=? k - n then den else den * 10 ^ (n - k) in
  let lo := sn / sd in
  let r := sn mod sd in
  let hi := lo + 1 in
  let lo_ok := same_finite (SF_of_decimal false lo (n - k)) m e in
  let hi_ok := same_finite (SF_of_decimal false hi (n - k)) m e in
  let prefer_lo := (2 * r <? sd) || ((2 * r =? sd) && Z.even lo) in
  match lo_ok, hi_ok with
  | true, true => Some (if prefer_lo then lo else hi)
  | true, false => Some lo
  | false, true => Some hi
  | false, false => None
  end.

(** Shortest digits: the least [k] for which some [k]-digit decimal reads
    back as the float.  Returns the digits [s] and the exponent [n] with
    value [s * 10^(n-k)], [10^(k-1) <= s < 10^k]. *)
Fixpoint shortest_from (fuel : nat) (m : positive) (e n k : Z) : Z * Z * Z :=
  match fuel with
  | O => (num_of m e * 10 ^ (k - n) / den_of e, k, n)
  | S fuel' =>
      match candidate m e n k with
      | Some s => if s =? 10 ^ k then (10 ^ (k - 1), k, n + 1) else (s, k, n)
      | None => shortest_from fuel' m e n (k + 1)
      end
  end.

Definition shortest (m : positive) (e : Z) : Z * Z * Z :=
  shortest_from 17 m e (magnitude m e) 1.

Definition take (n : Z) (s : string) : string := substring 0 (Z.to_nat n) s.
Definition drop (n : Z) (s : string) : string :=
  substring (Z.to_nat n) (String.length s - Z.to_nat n) s.

Definition exponent_part (n : Z) : string :=
  "e" ++ (if 0 <=? n - 1 then "+" else "-") ++ string_of_Z_abs (n - 1).

Definition format_digits (ds : string) (k n : Z) : string :=
  if (k <=? n) && (n <=? 21) then ds ++ repeat_char "0" (Z.to_nat (n - k))
  else if (0 <? n) && (n <=? 21) then take n ds ++ "." ++ drop n ds
  else if (-6 <? n) && (n <=? 0) then "0." ++ repeat_char "0" (Z.to_nat (- n)) ++ ds
  else if k =? 1 then ds ++ exponent_part n
  else take 1 ds ++ "." ++ drop 1 ds ++ exponent_part n.

Definition toString_finite (m : positive) (e : Z) : string :=
  let '(s, k, n) := shortest m e in
  format_digits (string_of_Z_abs s) k n.

Definition toString (x : float) : string :=
  match Prim2SF x with
  | S754_nan => "NaN"
  | S754_zero _ => "0"
  | S754_infinity s => if s then "-Infinity" else "Infinity"
  | S754_finite s m e =>
      (if s then "-" else EmptyString) ++ toString_finite m e
  end.

End JSNumber.

(* ================================================================== *)
(** * JavaScript values *)

(** The values the controller handles: what [JSON.parse] produces, plus
    [undefined] (a missing property) and the object literals the controller
    builds.  Objects list their own properties in creation order. *)
Inductive JSValue : Type :=
| JUndefined
| JNull
| JBool (b : bool)
| JNumber (x : float)
| JString (s : string)
| JArray (items : list JSValue)
| JObject (members : list (string * JSValue)).

Module JS.
Import Chars.

Fixpoint lookup (k : string) (ms : list (string * JSValue)) : JSValue :=
  match ms with
  | [] => JUndefined
  | (k', v) :: r => if String.eqb k k' then v else lookup k r
  end.

(** Property read [v[k]] for the keys the controller uses ([text], [name],
    [location], [summary], [score], [results], [embedding_time],
    [search_time]); none of them is a property of a string, an array, a
    number or a boolean, so [field] is [undefined] on those.  In [get],
    [None] is the [TypeError] raised when [v] is [null] or [undefined]. *)
Definition field (v : JSValue) (k : string) : JSValue :=
  match v with
  | JObject ms => lookup k ms
  | _ => JUndefined
  end.

Definition get (v : JSValue) (k : string) : option JSValue :=
  match v with
  | JUndefined | JNull => None
  | _ => Some (field v k)
  end.

(** [CreateDataProperty]: a repeated key keeps its place and takes the
    new value. *)
Fixpoint set_member (k : string) (v : JSValue) (ms : list (string * JSValue))
  : list (string * JSValue) :=
  match ms with
  | [] => [(k, v)]
  | (k', v') :: r =>
      if String.eqb k k' then (k', v) :: r else (k', v') :: set_member k v r
  end.

Definition has_own (k : string) (ms : list (string * JSValue)) : bool :=
  existsb (fun kv => String.eqb k (fst kv)) ms.

(** The [ToString] coercion; [None] is a [TypeError].  An object is
    converted by its [toString] method: the inherited one gives
    ["[object Object]"]; an own [toString] member hides it and, holding
    data, cannot be called, and [valueOf] returns the object itself, so
    the conversion throws.  An array joins the strings of its elements,
    [null] and [undefined] counting as empty. *)
Fixpoint ToString (v : JSValue) : option string :=
  match v with
  | JUndefined => Some "undefined"
  | JNull => Some "null"
  | JBool b => Some (if b then "true" else "false")
  | JNumber x => Some (JSNumber.toString x)
  | JString s => Some s
  | JArray items =>
      (fix join (l : list JSValue) : option string :=
         match l with
         | [] => Some EmptyString
         | x :: r =>
             match (match x with
                    | JUndefined | JNull => Some EmptyString
                    | _ => ToString x
                    end) with
             | None => None
             | Some e =>
                 match r with
                 | [] => Some e
                 | _ :: _ =>
                     match join r with
                     | Some t => Some (e ++ "," ++ t)
                     | None => None
                     end
                 end
             end
         end) items
  | JObject ms => if has_own "toString" ms then None else Some "[object Object]"
  end.

(** Truthiness, as [if (!search)] and [||] use it. *)
Definition truthy (v : JSValue) : bool :=
  match v with
  | JUndefined | JNull => false
  | JBool b => b
  | JNumber x => negb (PrimFloat.is_nan x || PrimFloat.is_zero x)
  | JString s => negb (String.eqb s EmptyString)
  | JArray _ | JObject _ => true
  end.

End JS.

(* ================================================================== *)
(** * [encodeURIComponent] *)

Module URI.
Import Chars.

Fixpoint mem (c : ascii) (s : string) : bool :=
  match s with
  | EmptyString => false
  | String d r => Ascii.eqb c d || mem c r
  end.

(** uriUnreserved: letters, digits and the marks [-_.!~*'()]. *)
Definition unreserved (c : ascii) : bool := is_alnum c || mem c "-_.!~*'()".

Definition hex_digit (n : Z) : ascii :=
  if n <? 10 then chr (48 + n) else chr (55 + n).

Definition escape (c : ascii) : string :=
  String "%" (String (hex_digit (code c / 16))
                     (String (hex_digit (code c mod 16)) EmptyString)).

Definition encode_char (c : ascii) : string :=
  if unreserved c then String c EmptyString else escape c.

(** The first two bytes of an unpaired surrogate (U+D800..U+DFFF): [ED],
    then a byte from [A0] to [BF]. *)
Definition surrogate_at (c : ascii) (r : string) : bool :=
  (code c =? 237)
  && match r with
     | String d _ => in_range 160 191 d
     | EmptyString => false
     end.

(** Each byte of the UTF-8 text is kept when unreserved and written [%XX]
    otherwise.  [None] is the [URIError] thrown when the text holds an
    unpaired surrogate. *)
Fixpoint encodeURIComponent (s : string) : option string :=
  match s with
  | EmptyString => Some EmptyString
  | String c r =>
      if surrogate_at c r then None
      else
        match encodeURIComponent r with
        | Some t => Some (encode_char c ++ t)
        | None => None
        end
  end.

(** The inverse reading of [%XX] escapes, used to state that the encoding
    loses nothing. *)
Fixpoint decode (s : string) : option string :=
  match s with
  | EmptyString => Some EmptyString
  | String c r =>
      if Ascii.eqb c "%" then
        match r with
        | String h (String l r') =>
            match hex_val h, hex_val l, decode r' with
            | Some a, Some b, Some t => Some (String (chr (16 * a + b)) t)
            | _, _, _ => None
            end
        | _ => None
        end
      else
        match decode r with
        | Some t => Some (String c t)
        | None => None
        end
  end.

End URI.

(* ================================================================== *)
(** * [JSON.parse] *)

Module JSON.
Import Chars.

(** Outcome of a parsing function: a value and the unread input, a
    [SyntaxError], or the recursion bound reached. *)
Inductive result (A : Type) : Type :=
| Ok (a : A) (rest : string)
| SyntaxError
| OutOfFuel.
Arguments Ok {A} a rest.
Arguments SyntaxError {A}.
Arguments OutOfFuel {A}.

(** JSON white space: tab, line feed, carriage return, space. *)
Definition is_ws (c : ascii) : bool :=
  (code c =? 9) || (code c =? 10) || (code c =? 13) || (code c =? 32).

Fixpoint skip_ws (s : string) : string :=
  match s with
  | String c r => if is_ws c then skip_ws r else s
  | EmptyString => s
  end.

(** Reads the longest run of decimal digits, accumulating its value onto
    [acc]; returns the value, the number of digits read and the rest. *)
Fixpoint read_digits (acc : Z) (s : string) : Z * Z * string :=
  match s with
  | String c r =>
      if is_digit c then
        let '(v, n, rest) := read_digits (10 * acc + digit_val c) r in
        (v, n + 1, rest)
      else (acc, 0, s)
  | EmptyString => (acc, 0, s)
  end.

(** ** Numbers

    An optional minus sign; an integer part that is [0] or starts with a
    non-zero digit; an optional fraction of one or more digits; an optional
    exponent with an optional sign and one or more digits. *)

Definition read_int (s : string) : option (Z * string) :=
  match s with
  | String c r =>
      if Ascii.eqb c "0" then Some (0, r)
      else if is_digit c then
        let '(v, _, rest) := read_digits 0 s in Some (v, rest)
      else None
  | EmptyString => None
  end.

(** Optional fraction: the mantissa extended by the fraction digits and
    their count. *)
Definition read_frac (m : Z) (s : string) : option (Z * Z * string) :=
  match s with
  | String c r =>
      if Ascii.eqb c "." then
        let '(v, n, rest) := read_digits m r in
        if n =? 0 then None else Some (v, n, rest)
      else Some (m, 0, s)
  | EmptyString => Some (m, 0, s)
  end.

Definition read_sign (s : string) : bool * string :=
  match s with
  | String c r =>
      if Ascii.eqb c "-" then (true, r)
      else if Ascii.eqb c "+" then (false, r)
      else (false, s)
  | EmptyString => (false, s)
  end.

Definition read_exp (s : string) : option (Z * string) :=
  match s with
  | String c r =>
      if Ascii.eqb c "e" || Ascii.eqb c "E" then
        let '(neg, r1) := read_sign r in
        let '(v, n, rest) := read_digits 0 r1 in
        if n =? 0 then None else Some (if neg then - v else v, rest)
      else Some (0, s)
  | EmptyString => Some (0, s)
  end.

Definition parse_number (s : string) : result JSValue :=
  let '(neg, s1) :=
    match s with
    | String c r => if Ascii.eqb c "-" then (true, r) else (false, s)
    | EmptyString => (false, s)
    end in
  match read_int s1 with
  | None => SyntaxError
  | Some (i, s2) =>
      match read_frac i s2 with
      | None => SyntaxError
      | Some (m, nfrac, s3) =>
          match read_exp s3 with
          | None => SyntaxError
          | Some (e, s4) => Ok (JNumber (JSNumber.of_decimal neg m (e - nfrac))) s4
          end
      end
  end.

(** ** Strings *)

(** UTF-8 bytes of a code point; a lone surrogate is written with the
    three-byte pattern. *)
Definition utf8 (cp : Z) : string :=
  if cp <? 128 then String (chr cp) EmptyString
  else if cp <? 2048 then
    String (chr (192 + cp / 64)) (String (chr (128 + cp mod 64)) EmptyString)
  else if cp <? 65536 then
    String (chr (224 + cp / 4096))
      (String (chr (128 + (cp / 64) mod 64))
         (String (chr (128 + cp mod 64)) EmptyString))
  else
    String (chr (240 + cp / 262144))
      (String (chr (128 + (cp / 4096) mod 64))
         (String (chr (128 + (cp / 64) mod 64))
            (String (chr (128 + cp mod 64)) EmptyString))).

Definition hex4 (a b c d : ascii) : option Z :=
  match hex_val a, hex_val b, hex_val c, hex_val d with
  | Some x, Some y, Some z, Some w => Some (4096 * x + 256 * y + 16 * z + w)
  | _, _, _, _ => None
  end.

Definition is_high_surrogate (u : Z) : bool := (55296 <=? u) && (u <=? 56319).
Definition is_low_surrogate (u : Z) : bool := (56320 <=? u) && (u <=? 57343).

(** Output so far (reversed) with the pending high surrogate, if any,
    written out on its own. *)
Definition flush (pending : option Z) (acc : string) : string :=
  match pending with
  | Some h => rev_append (utf8 h) acc
  | None => acc
  end.

Definition simple_escape (e : ascii) : option ascii :=
  if Ascii.eqb e dquote then Some e
  else if Ascii.eqb e "\" then Some e
  else if Ascii.eqb e "/" then Some e
  else if Ascii.eqb e "b" then Some (chr 8)
  else if Ascii.eqb e "f" then Some (chr 12)
  else if Ascii.eqb e "n" then Some (chr 10)
  else if Ascii.eqb e "r" then Some (chr 13)
  else if Ascii.eqb e "t" then Some (chr 9)
  else None.

(** The characters after the opening quote, up to the closing one.  A
    [\uXXXX] high surrogate is held in [pending] until the next character
    shows whether a low surrogate completes the pair. *)
Fixpoint parse_chars (pending : option Z) (acc : string) (s : string)
  : option (string * string) :=
  match s with
  | EmptyString => None
  | String c r =>
      if Ascii.eqb c dquote then Some (rev (flush pending acc), r)
      else if Ascii.eqb c "\" then
        match r with
        | String e r1 =>
            if Ascii.eqb e "u" then
              match r1 with
              | String h1 (String h2 (String h3 (String h4 r2))) =>
                  match hex4 h1 h2 h3 h4 with
                  | Some u =>
                      match pending with
                      | Some h =>
                          if is_low_surrogate u then
                            parse_chars None
                              (rev_append
                                 (utf8 (65536 + (h - 55296) * 1024 + (u - 56320)))
                                 acc) r2
                          else if is_high_surrogate u then
                            parse_chars (Some u) (flush pending acc) r2
                          else
                            parse_chars None
                              (rev_append (utf8 u) (flush pending acc)) r2
                      | None =>
                          if is_high_surrogate u then parse_chars (Some u) acc r2
                          else parse_chars None (rev_append (utf8 u) acc) r2
                      end
                  | None => None
                  end
              | _ => None
              end
            else
              match simple_escape e with
              | Some x => parse_chars None (String x (flush pending acc)) r1
              | None => None
              end
        | EmptyString => None
        end
      else if code c <? 32 then None
      else parse_chars None (String c (flush pending acc)) r
  end.

Definition parse_string (s : string) : option (string * string) :=
  parse_chars None EmptyString s.

(** ** Values *)

Definition literal (lit : string) (v : JSValue) (s : string) : result JSValue :=
  match strip_prefix lit s with
  | Some r => Ok v r
  | None => SyntaxError
  end.

Fixpoint parse_value (fuel : nat) (s : string) {struct fuel} : result JSValue :=
  match fuel with
  | O => OutOfFuel
  | S fuel' =>
      match skip_ws s with
      | EmptyString => SyntaxError
      | String c r as t =>
          if Ascii.eqb c "{" then
            match skip_ws r with
            | EmptyString => SyntaxError
            | String d r' =>
                if Ascii.eqb d "}" then Ok (JObject []) r'
                else parse_members fuel' [] r
            end
          else if Ascii.eqb c "[" then
            match skip_ws r with
            | EmptyString => SyntaxError
            | String d r' =>
                if Ascii.eqb d "]" then Ok (JArray []) r'
                else parse_elements fuel' [] r
            end
          else if Ascii.eqb c dquote then
            match parse_string r with
            | Some (x, r') => Ok (JString x) r'
            | None => SyntaxError
            end
          else if Ascii.eqb c "t" then literal "true" (JBool true) t
          else if Ascii.eqb c "f" then literal "false" (JBool false) t
          else if Ascii.eqb c "n" then literal "null" JNull t
          else parse_number t
      end
  end

with parse_elements (fuel : nat) (acc : list JSValue) (s : string)
       {struct fuel} : result JSValue :=
  match fuel with
  | O => OutOfFuel
  | S fuel' =>
      match parse_value fuel' s with
      | Ok v r =>
          match skip_ws r with
          | EmptyString => SyntaxError
          | String d r' =>
              if Ascii.eqb d "," then parse_elements fuel' (v :: acc) r'
              else if Ascii.eqb d "]" then Ok (JArray (List.rev (v :: acc))) r'
              else SyntaxError
          end
      | SyntaxError => SyntaxError
      | OutOfFuel => OutOfFuel
      end
  end

with parse_members (fuel : nat) (acc : list (string * JSValue)) (s : string)
       {struct fuel} : result JSValue :=
  match fuel with
  | O => OutOfFuel
  | S fuel' =>
      match skip_ws s with
      | EmptyString => SyntaxError
      | String q r =>
          if Ascii.eqb q dquote then
            match parse_string r with
            | None => SyntaxError
            | Some (k, r1) =>
                match skip_ws r1 with
                | EmptyString => SyntaxError
                | String d r2 =>
                    if Ascii.eqb d ":" then
                      match parse_value fuel' r2 with
                      | Ok v r3 =>
                          match skip_ws r3 with
                          | EmptyString => SyntaxError
                          | String d' r4 =>
                              if Ascii.eqb d' "," then
                                parse_members fuel' (JS.set_member k v acc) r4
                              else if Ascii.eqb d' "}" then
                                Ok (JObject (JS.set_member k v acc)) r4
                              else SyntaxError
                          end
                      | SyntaxError => SyntaxError
                      | OutOfFuel => OutOfFuel
                      end
                    else SyntaxError
                end
            end
          else SyntaxError
      end
  end.

(** Recursion bound that every input fits in (see [parse_value_fuel]). *)
Definition fuel_for (s : string) : nat := 2 * String.length s + 2.

Definition parse_text (s : string) : result JSValue :=
  match parse_value (fuel_for s) s with
  | Ok v r =>
      match skip_ws r with
      | EmptyString => Ok v EmptyString
      | String _ _ => SyntaxError
      end
  | SyntaxError => SyntaxError
  | OutOfFuel => OutOfFuel
  end.

(** [JSON.parse] applied to a string: [None] is the [SyntaxError]. *)
Definition parse (s : string) : option JSValue :=
  match parse_text s with
  | Ok v _ => Some v
  | _ => None
  end.

End JSON.

(* ================================================================== *)
(** * The [ToNumber] coercion *)

Module Numeric.
Import Chars.

Definition string_of_codes (l : list Z) : string :=
  fold_right (fun n s => String (chr n) s) EmptyString l.

(** White space and line terminators that [StringToNumber] trims, as
    UTF-8 byte sequences: TAB, LF, VT, FF, CR, SP, U+00A0, U+1680,
    U+2000..U+200A, U+2028, U+2029, U+202F, U+205F, U+3000, U+FEFF. *)
Definition white_space : list string :=
  map string_of_codes
    [[9]; [10]; [11]; [12]; [13]; [32]; [194; 160]; [225; 154; 128];
     [226; 128; 128]; [226; 128; 129]; [226; 128; 130]; [226; 128; 131];
     [226; 128; 132]; [226; 128; 133]; [226; 128; 134]; [226; 128; 135];
     [226; 128; 136]; [226; 128; 137]; [226; 128; 138]; [226; 128; 168];
     [226; 128; 169]; [226; 128; 175]; [226; 129; 159]; [227; 128; 128];
     [239; 187; 191]].

Fixpoint strip_any (seqs : list string) (s : string) : option string :=
  match seqs with
  | [] => None
  | p :: ps =>
      match strip_prefix p s with
      | Some r => Some r
      | None => strip_any ps s
      end
  end.

Fixpoint trim_start_with (seqs : list string) (fuel : nat) (s : string) : string :=
  match fuel with
  | O => s
  | S fuel' =>
      match strip_any seqs s with
      | Some r => trim_start_with seqs fuel' r
      | None => s
      end
  end.

Definition trim (s : string) : string :=
  let s1 := trim_start_with white_space (String.length s) s in
  rev (trim_start_with (map rev white_space) (String.length s1) (rev s1)).

(** Digits of a [0x], [0o] or [0b] literal: all of [s], at least one. *)
Fixpoint read_radix (base : Z) (acc : Z) (s : string) : option Z :=
  match s with
  | EmptyString => Some acc
  | String c r =>
      match hex_val c with
      | Some d => if d <? base then read_radix base (base * acc + d) r else None
      | None => None
      end
  end.

Definition radix_literal (base : Z) (s : string) : float :=
  match s with
  | EmptyString => nan
  | String _ _ =>
      match read_radix base 0 s with
      | Some n => JSNumber.of_decimal false n 0
      | None => nan
      end
  end.

(** StrDecimalLiteral: a sign, then [Infinity] or decimal digits with an
    optional point and exponent; at least one digit. *)
Definition decimal_literal (s : string) : float :=
  let '(neg, s1) := JSON.read_sign s in
  if String.eqb s1 "Infinity" then (if neg then neg_infinity else infinity)
  else
    let '(i, ni, s2) := JSON.read_digits 0 s1 in
    let '(m, nf, s3) :=
      match s2 with
      | String c r => if Ascii.eqb c "." then JSON.read_digits i r else (i, 0, s2)
      | EmptyString => (i, 0, s2)
      end in
    if ni + nf =? 0 then nan
    else
      match JSON.read_exp s3 with
      | Some (e, EmptyString) => JSNumber.of_decimal neg m (e - nf)
      | _ => nan
      end.

Definition StringToNumber (s : string) : float :=
  match trim s with
  | EmptyString => zero
  | String a (String b r) as t =>
      if Ascii.eqb a "0" && (Ascii.eqb b "x" || Ascii.eqb b "X") then radix_literal 16 r
      else if Ascii.eqb a "0" && (Ascii.eqb b "o" || Ascii.eqb b "O") then radix_literal 8 r
      else if Ascii.eqb a "0" && (Ascii.eqb b "b" || Ascii.eqb b "B") then radix_literal 2 r
      else decimal_literal t
  | t => decimal_literal t
  end.

(** [ToNumber]; [None] is a [TypeError].  For an array or an object
    [valueOf] returns the value itself, so the number is read from the
    string form, and the conversion throws when that one does. *)
Definition ToNumber (v : JSValue) : option float :=
  match v with
  | JUndefined => Some nan
  | JNull => Some zero
  | JBool b => Some (if b then one else zero)
  | JNumber x => Some x
  | JString s => Some (StringToNumber s)
  | JArray _ | JObject _ =>
      match JS.ToString v with
      | Some s => Some (StringToNumber s)
      | None => None
      end
  end.

End Numeric.

(* ================================================================== *)
(** * The component [SearchApp] (src/src/App.tsx) *)

Module SearchApp.

(** ** Data *)

(** The six [useState] cells that make up the query. *)
Record QueryParams : Type := mkParams {
  searchTerm : string;
  threshold : float;
  fast : bool;
  limit : float;
  speed : float;
  dataset : string
}.

Record TimingMetrics : Type := mkTiming {
  embeddings : float;
  search : float;
  total : float
}.

(** What the [catch] clause can receive. *)
Inductive Thrown : Type :=
| HttpError (message : string)   (* [new Error(`HTTP error! Status: ...`)] *)
| FetchFailed                    (* [fetch] rejected: no response *)
| BodySyntaxError                (* [response.json()] rejected *)
| TypeError                      (* property read on [null], [map] missing,
                                    a value without a number or string form *)
| URIError.                      (* [encodeURIComponent] on an unpaired surrogate *)

(** How a [fetch] settles. *)
Inductive FetchOutcome : Type :=
| NetworkFailure
| Response (status : Z) (body : string).

(** A request handed to [fetch], with the [startTime] its continuation
    has captured. *)
Record Request : Type := mkRequest {
  req_url : string;
  req_start : float
}.

(** State of the component and of its surroundings: the React state
    cells, the timer of the debounced function (deadline and last
    arguments), the clock in milliseconds, the requests issued so far, the
    ones still awaiting a response, and the console. *)
Record State : Type := mkState {
  params : QueryParams;
  results : list JSValue;
  loading : bool;
  error : option string;
  timingMetrics : option TimingMetrics;
  timer : option (Z * QueryParams);
  now : Z;
  sent : list Request;
  awaiting : list nat;
  console : list (string * Thrown)
}.

Definition setParams (p : QueryParams) (st : State) : State :=
  mkState p (results st) (loading st) (error st) (timingMetrics st)
          (timer st) (now st) (sent st) (awaiting st) (console st).
Definition setResults (r : list JSValue) (st : State) : State :=
  mkState (params st) r (loading st) (error st) (timingMetrics st)
          (timer st) (now st) (sent st) (awaiting st) (console st).
Definition setLoading (b : bool) (st : State) : State :=
  mkState (params st) (results st) b (error st) (timingMetrics st)
          (timer st) (now st) (sent st) (awaiting st) (console st).
Definition setError (e : option string) (st : State) : State :=
  mkState (params st) (results st) (loading st) e (timingMetrics st)
          (timer st) (now st) (sent st) (awaiting st) (console st).
Definition setTimingMetrics (t : option TimingMetrics) (st : State) : State :=
  mkState (params st) (results st) (loading st) (error st) t
          (timer st) (now st) (sent st) (awaiting st) (console st).
Definition setTimer (t : option (Z * QueryParams)) (st : State) : State :=
  mkState (params st) (results st) (loading st) (error st) (timingMetrics st)
          t (now st) (sent st) (awaiting st) (console st).
Definition setNow (t : Z) (st : State) : State :=
  mkState (params st) (results st) (loading st) (error st) (timingMetrics st)
          (timer st) t (sent st) (awaiting st) (console st).
Definition issue (r : Request) (st : State) : State :=
  mkState (params st) (results st) (loading st) (error st) (timingMetrics st)
          (timer st) (now st) (sent st ++ [r])
          (awaiting st ++ [List.length (sent st)]) (console st).
Definition setAwaiting (l : list nat) (st : State) : State :=
  mkState (params st) (results st) (loading st) (error st) (timingMetrics st)
          (timer st) (now st) (sent st) l (console st).
Definition console_error (label : string) (err : Thrown) (st : State) : State :=
  mkState (params st) (results st) (loading st) (error st) (timingMetrics st)
          (timer st) (now st) (sent st) (awaiting st)
          (console st ++ [(label, err)]).

(** [performance.now()], at the clock's resolution. *)
Definition performance_now (st : State) : float := JSNumber.of_Z (now st).

(** ** Statements that change the state and may throw *)

Definition Act (A : Type) : Type := State -> State * (Thrown + A).

Definition ret {A} (a : A) : Act A := fun st => (st, inr a).
Definition throw {A} (e : Thrown) : Act A := fun st => (st, inl e).
Definition bind {A B} (m : Act A) (k : A -> Act B) : Act B :=
  fun st =>
    match m st with
    | (st', inr a) => k a st'
    | (st', inl e) => (st', inl e)
    end.
Definition exec (f : State -> State) : Act unit := fun st => (f st, inr tt).
Definition read {A} (f : State -> A) : Act A := fun st => (st, inr (f st)).
Definition orThrow {A} (e : Thrown) (o : option A) : Act A :=
  match o with
  | Some a => ret a
  | None => throw e
  end.

Notation "x <- m ;; k" := (bind m (fun x => k))
  (at level 61, m at next level, right associativity).
Notation "m ;;; k" := (bind m (fun _ => k))
  (at level 61, right associativity).

(** [try { body } catch (err) { handler } finally { last }], for a handler
    and a [finally] block that do not throw. *)
Definition try_catch_finally (body : Act unit) (handler : Thrown -> State -> State)
           (last : State -> State) (st : State) : State :=
  match body st with
  | (st', inr _) => last st'
  | (st', inl err) => last (handler err st')
  end.

(** ** The request URL *)

Definition endpoint : string :=
  "https://po65lcryad.execute-api.us-east-1.amazonaws.com/dev/search".

Definition bool_text (b : bool) : string := if b then "true" else "false".

(** The template literal, [encoded] being [encodeURIComponent(search)]. *)
Definition url_with (encoded : string) (q : QueryParams) : string :=
  endpoint ++ "?search=" ++ encoded
    ++ "&optimized=" ++ bool_text (fast q)
    ++ "&limit=" ++ JSNumber.toString (limit q)
    ++ "&threshold=" ++ JSNumber.toString (threshold q)
    ++ "&speed=" ++ JSNumber.toString (speed q)
    ++ "&dataset=" ++ dataset q.

(** [None] when [encodeURIComponent] throws. *)
Definition url (q : QueryParams) : option string :=
  match URI.encodeURIComponent (searchTerm q) with
  | Some encoded => Some (url_with encoded q)
  | None => None
  end.

(** The URL of the earlier variants of the component (src/unnamed/part_000),
    which have no [speed] and [dataset] and differ in the endpoint. *)
Definition endpoint_first : string := "http://54.167.27.251:8080/search".

Definition url_basic_with (base encoded : string) (q : QueryParams) : string :=
  base ++ "?search=" ++ encoded
    ++ "&optimized=" ++ bool_text (fast q)
    ++ "&limit=" ++ JSNumber.toString (limit q)
    ++ "&threshold=" ++ JSNumber.toString (threshold q).

Definition url_basic (base : string) (q : QueryParams) : option string :=
  match URI.encodeURIComponent (searchTerm q) with
  | Some encoded => Some (url_basic_with base encoded q)
  | None => None
  end.

(** ** Result normalization *)

(** [JSON.parse(text)]: the argument is converted to a string and the
    string parsed.  [None] is the exception of either step. *)
Definition JSON_parse (text : JSValue) : option JSValue :=
  match JS.ToString text with
  | Some s => JSON.parse s
  | None => None
  end.

(** The callback of [rawResults.map].  [None] is an exception leaving the
    callback: reading [result.text] in the [catch] clause throws again
    when [result] itself is [null]. *)
Definition processResult (result : JSValue) : option JSValue :=
  let attempt : option JSValue :=
    match JS.get result "text" with
    | None => None
    | Some text =>
        match JSON_parse text with
        | None => None
        | Some jsonData =>
            match JS.get jsonData "name", JS.get jsonData "location",
                  JS.get jsonData "summary", JS.get jsonData "text",
                  JS.get jsonData "score" with
            | Some n, Some l, Some s, Some t, Some c =>
                Some (JObject [("name", n); ("location", l); ("summary", s);
                               ("text", t); ("score", c)])
            | _, _, _, _, _ => None
            end
        end
    end in
  match attempt with
  | Some r => Some r
  | None =>
      match JS.get result "text" with
      | Some text => Some (JObject [("text", text)])
      | None => None
      end
  end.

Fixpoint mapM {A B} (f : A -> option B) (l : list A) : option (list B) :=
  match l with
  | [] => Some []
  | x :: r =>
      match f x with
      | None => None
      | Some y =>
          match mapM f r with
          | None => None
          | Some ys => Some (y :: ys)
          end
      end
  end.

(** [rawResults.map(...)]: a [TypeError] when [rawResults] is no array. *)
Definition processedResults (rawResults : JSValue) : option (list JSValue) :=
  match rawResults with
  | JArray items => mapM processResult items
  | _ => None
  end.

(** ** The debounced function *)

Definition failure_message : string := "Failed to fetch results. Please try again.".
Definition log_label : string := "Error fetching search results:".

Definition ok (status : Z) : bool := (200 <=? status) && (status <=? 299).

(** The [catch] clause. *)
Definition caught (err : Thrown) (st : State) : State :=
  setError (Some failure_message) (console_error log_label err st).

(** The function given to [_.debounce], up to [await fetch(url)].  When
    building the URL throws, the [catch] and [finally] clauses run at once
    and nothing is sent. *)
Definition search_begin (q : QueryParams) (st : State) : State :=
  if negb (JS.truthy (JString (searchTerm q))) then
    setTimingMetrics None (setResults [] st)
  else
    let st := setTimingMetrics None (setError None (setLoading true st)) in
    let startTime := performance_now st in
    match url q with
    | Some u => issue (mkRequest u startTime) st
    | None => setLoading false (caught URIError st)
    end.

(** The rest of the function, run when the [fetch] settles. *)
Definition search_resume (startTime : float) (o : FetchOutcome) : State -> State :=
  try_catch_finally
    (body <- (match o with
              | NetworkFailure => throw FetchFailed
              | Response status body =>
                  if negb (ok status) then
                    throw (HttpError ("HTTP error! Status: "
                                        ++ JSNumber.toString (JSNumber.of_Z status)))
                  else ret body
              end) ;;
     data <- orThrow BodySyntaxError (JSON.parse body) ;;
     endTime <- read performance_now ;;
     let totalTime := (endTime - startTime)%float in
     embeddingsTime <- orThrow TypeError (JS.get data "embedding_time") ;;
     searchTime <- orThrow TypeError (JS.get data "search_time") ;;
     embeddingsNs <- orThrow TypeError (Numeric.ToNumber embeddingsTime) ;;
     searchNs <- orThrow TypeError (Numeric.ToNumber searchTime) ;;
     exec (setTimingMetrics
             (Some (mkTiming (embeddingsNs / 1000000)%float
                             (searchNs / 1000000)%float
                             totalTime))) ;;;
     rawResults <- orThrow TypeError (JS.get data "results") ;;
     processed <- orThrow TypeError (processedResults rawResults) ;;
     exec (setResults processed))
    caught
    (setLoading false).

(** ** The debounce *)

Definition wait : Z := 500.

(** Modelled from the spec: [_.debounce] is lodash's and its code is not
    among the sources; only the call [_.debounce(f, 500)] is.  After a call
    the function waits for 500 ms without a further call; each call stores
    its arguments and moves the deadline to 500 ms after it, and the
    function runs once, with the arguments of the last call, when the
    deadline is reached. *)
Definition debouncedSearch (q : QueryParams) (st : State) : State :=
  setTimer (Some (now st + wait, q)) st.

(** The [useEffect] body. *)
Definition effect (st : State) : State := debouncedSearch (params st) st.

(** ** Change handlers *)

Inductive Edit : Type :=
| SearchChange (value : string)      (* [handleSearchChange], [e.target.value] *)
| ThresholdChange (parsed : float)   (* [handleThresholdChange], after [parseFloat] *)
| LimitChange (parsed : float)       (* [handleLimitChange], after [parseInt] *)
| FastToggle                         (* [handleFastToggle] *)
| SpeedChange (newSpeed : float)     (* [handleSpeedChange] *)
| DatasetChange (newDataset : string). (* [handleDatasetChange] *)

Definition apply_edit (e : Edit) (q : QueryParams) : QueryParams :=
  match e with
  | SearchChange value =>
      mkParams value (threshold q) (fast q) (limit q) (speed q) (dataset q)
  | ThresholdChange parsed =>
      mkParams (searchTerm q) parsed (fast q) (limit q) (speed q) (dataset q)
  | LimitChange parsed =>
      let n := if JS.truthy (JNumber parsed) then parsed else 1%float in
      mkParams (searchTerm q) (threshold q) (fast q) n (speed q) (dataset q)
  | FastToggle =>
      mkParams (searchTerm q) (threshold q) (negb (fast q)) (limit q) (speed q) (dataset q)
  | SpeedChange newSpeed =>
      mkParams (searchTerm q) (threshold q) (fast q) (limit q) newSpeed (dataset q)
  | DatasetChange newDataset =>
      mkParams (searchTerm q) (threshold q) (fast q) (limit q) (speed q) newDataset
  end.

(** [Object.is] on each dependency of the effect. *)
Definition same_params (p q : QueryParams) : bool :=
  String.eqb (searchTerm p) (searchTerm q)
  && PrimFloat.Leibniz.eqb (threshold p) (threshold q)
  && Bool.eqb (fast p) (fast q)
  && PrimFloat.Leibniz.eqb (limit p) (limit q)
  && PrimFloat.Leibniz.eqb (speed p) (speed q)
  && String.eqb (dataset p) (dataset q).

(** A handler stores the new value; React re-renders and re-runs the
    effect only when a dependency has changed. *)
Definition on_edit (e : Edit) (st : State) : State :=
  let q := apply_edit e (params st) in
  if same_params (params st) q then st
  else effect (setParams q st).

(** ** Events *)

Inductive Event : Type :=
| Edited (e : Edit)
| Elapse (dt : Z)
| Settle (i : nat) (o : FetchOutcome).

(** [dt] milliseconds pass; a timer whose deadline falls within them
    fires at its deadline. *)
Definition elapse (dt : Z) (st : State) : State :=
  let t := now st + dt in
  match timer st with
  | Some (deadline, q) =>
      if deadline <=? t then
        setNow t (search_begin q (setNow deadline (setTimer None st)))
      else setNow t st
  | None => setNow t st
  end.

Fixpoint remove_index (i : nat) (l : list nat) : list nat :=
  match l with
  | [] => []
  | j :: r => if Nat.eqb i j then r else j :: remove_index i r
  end.

(** The [fetch] of request [i] settles. *)
Definition settle (i : nat) (o : FetchOutcome) (st : State) : State :=
  if existsb (Nat.eqb i) (awaiting st) then
    match nth_error (sent st) i with
    | Some r => search_resume (req_start r) o (setAwaiting (remove_index i (awaiting st)) st)
    | None => st
    end
  else st.

Definition step (ev : Event) (st : State) : State :=
  match ev with
  | Edited e => on_edit e st
  | Elapse dt => elapse dt st
  | Settle i o => settle i o st
  end.

Definition run (evs : list Event) (st : State) : State :=
  fold_left (fun s ev => step ev s) evs st.

(** The component before and after mounting. *)
Definition initial : State :=
  mkState (mkParams EmptyString 0.5 false 10 0 "reviews") [] false None None None 0 [] [] [].

Definition mounted : State := effect initial.

(** The view's empty branch: nothing to show and nothing in progress. *)
Definition is_idle (st : State) : bool :=
  negb (loading st)
  && match error st with None => true | Some _ => false end
  && match results st with [] => true | _ :: _ => false end
  && match timingMetrics st with None => true | Some _ => false end.

End SearchApp.

(* ================================================================== *)
(** * Reading a URL's query string

    Used to state what a request carries: the text after the first [?] and
    before any [#], split at each [&], each piece split at its first [=].
    Values are left percent-encoded. *)

Module Query.

Fixpoint after (c : ascii) (s : string) : string :=
  match s with
  | EmptyString => EmptyString
  | String d r => if Ascii.eqb d c then r else after c r
  end.

Fixpoint before (c : ascii) (s : string) : string :=
  match s with
  | EmptyString => EmptyString
  | String d r => if Ascii.eqb d c then EmptyString else String d (before c r)
  end.

Fixpoint split_on (sep : ascii) (s : string) : list string :=
  match s with
  | EmptyString => [EmptyString]
  | String d r =>
      if Ascii.eqb d sep then EmptyString :: split_on sep r
      else
        match split_on sep r with
        | h :: t => String d h :: t
        | [] => [String d EmptyString]
        end
  end.

Definition key_value (s : string) : string * string :=
  (before "=" s, after "=" s).

Definition query_of (u : string) : string := before "#" (after "?" u).

Definition params_of (u : string) : list (string * string) :=
  map key_value (split_on "&" (query_of u)).

Definition other_than (c d : ascii) : bool := negb (Ascii.eqb d c).

(** Characters that end neither a parameter nor the query. *)
Definition plain (c : ascii) : bool := other_than "&" c && other_than "#" c.

End Query.

(* ================================================================== *)
(** * Facts about strings *)

Module StringFacts.
Import Chars.

Lemma append_assoc (a b c : string) : (a ++ b) ++ c = a ++ (b ++ c).
Proof.
  induction a as [|x a IH]; simpl; [reflexivity | now rewrite IH].
Qed.

Lemma append_nil_r (a : string) : a ++ EmptyString = a.
Proof.
  induction a as [|x a IH]; simpl; [reflexivity | now rewrite IH].
Qed.

Lemma all_chars_app (p : ascii -> bool) (a b : string) :
  all_chars p (a ++ b) = all_chars p a && all_chars p b.
Proof.
  induction a as [|x a IH]; simpl; [reflexivity|].
  now rewrite IH, andb_assoc.
Qed.

Lemma all_chars_weaken (p q : ascii -> bool) (s : string) :
  (forall c, p c = true -> q c = true) ->
  all_chars p s = true -> all_chars q s = true.
Proof.
  intros Hpq. induction s as [|x s IH]; simpl; [reflexivity|].
  intros H. apply andb_true_iff in H as [Hx Hs].
  now rewrite (Hpq _ Hx), (IH Hs).
Qed.

Lemma all_chars_substring (p : ascii -> bool) (s : string) :
  all_chars p s = true ->
  forall n m, all_chars p (substring n m s) = true.
Proof.
  induction s as [|x s IH]; intros H n m.
  - destruct n, m; reflexivity.
  - simpl in H. apply andb_true_iff in H as [Hx Hs].
    destruct n as [|n].
    + destruct m as [|m]; simpl; [reflexivity|].
      now rewrite Hx, (IH Hs).
    + simpl. now apply IH.
Qed.

Lemma all_chars_repeat (p : ascii -> bool) (c : ascii) (n : nat) :
  p c = true -> all_chars p (repeat_char c n) = true.
Proof.
  intros Hc. induction n as [|n IH]; simpl; [reflexivity|].
  now rewrite Hc, IH.
Qed.

Lemma all_digits_uint (u : Decimal.uint) :
  all_chars is_digit (NilEmpty.string_of_uint u) = true.
Proof.
  induction u; simpl; try reflexivity; exact IHu.
Qed.

Lemma all_digits_Z (n : Z) : all_chars is_digit (string_of_Z_abs n) = true.
Proof.
  unfold string_of_Z_abs, NilZero.string_of_uint.
  destruct (N.to_uint (Z.abs_N n)) eqn:E;
    try reflexivity; rewrite <- E; apply all_digits_uint.
Qed.

End StringFacts.

(* ================================================================== *)
(** * Facts about the URL *)

Module UrlFacts.
Import Chars StringFacts Query.

(** Characters a rendered number is made of. *)
Definition numeric (c : ascii) : bool :=
  is_digit c || URI.mem c ".-+eNaInfity".

Ltac each_ascii c :=
  destruct c as [[] [] [] [] [] [] [] []].

Lemma numeric_plain (c : ascii) : numeric c = true -> plain c = true.
Proof.
  unfold plain, other_than. intros H.
  destruct (Ascii.eqb c "&") eqn:E1.
  - apply Ascii.eqb_eq in E1. subst c. discriminate H.
  - destruct (Ascii.eqb c "#") eqn:E2; [|reflexivity].
    apply Ascii.eqb_eq in E2. subst c. discriminate H.
Qed.

Lemma digit_numeric (c : ascii) : is_digit c = true -> numeric c = true.
Proof. unfold numeric. now intros ->. Qed.

Lemma exponent_part_numeric (n : Z) :
  all_chars numeric (JSNumber.exponent_part n) = true.
Proof.
  unfold JSNumber.exponent_part.
  rewrite !all_chars_app.
  rewrite (all_chars_weaken _ _ _ digit_numeric (all_digits_Z _)).
  now destruct (0 <=? n - 1).
Qed.

Lemma format_digits_numeric (ds : string) (k n : Z) :
  all_chars numeric ds = true ->
  all_chars numeric (JSNumber.format_digits ds k n) = true.
Proof.
  intros Hds. unfold JSNumber.format_digits, JSNumber.take, JSNumber.drop.
  repeat match goal with
         | |- context [if ?b then _ else _] => destruct b
         end;
    rewrite ?all_chars_app, ?exponent_part_numeric, ?Hds,
      ?(all_chars_substring _ _ Hds), ?all_chars_repeat by reflexivity;
    reflexivity.
Qed.

Lemma toString_numeric (x : float) :
  all_chars numeric (JSNumber.toString x) = true.
Proof.
  unfold JSNumber.toString.
  destruct (Prim2SF x) as [s | s | | s m e];
    try reflexivity; try (now destruct s).
  rewrite all_chars_app. unfold JSNumber.toString_finite.
  destruct (JSNumber.shortest m e) as [[d k] n].
  rewrite format_digits_numeric
    by exact (all_chars_weaken _ _ _ digit_numeric (all_digits_Z d)).
  now destruct s.
Qed.

Lemma toString_plain (x : float) : all_chars plain (JSNumber.toString x) = true.
Proof. exact (all_chars_weaken _ _ _ numeric_plain (toString_numeric x)). Qed.

Lemma encode_char_plain (c : ascii) : all_chars plain (URI.encode_char c) = true.
Proof. each_ascii c; reflexivity. Qed.

Lemma encodeURIComponent_plain (s : string) :
  forall t, URI.encodeURIComponent s = Some t -> all_chars plain t = true.
Proof.
  induction s as [|c s IH]; cbn [URI.encodeURIComponent]; intros t H.
  - now injection H as <-.
  - destruct (URI.surrogate_at c s); [discriminate H|].
    destruct (URI.encodeURIComponent s) as [u|]; [|discriminate H].
    injection H as <-. now rewrite all_chars_app, encode_char_plain, (IH u).
Qed.

(** A text without the byte [ED] holds no surrogate and is encoded. *)
Lemma encodeURIComponent_total (s : string) :
  all_chars (fun c => negb (code c =? 237)) s = true ->
  exists t, URI.encodeURIComponent s = Some t.
Proof.
  induction s as [|c s IH]; cbn [URI.encodeURIComponent all_chars]; intros H.
  - now eexists.
  - apply andb_true_iff in H as [Hc Hs]. apply negb_true_iff in Hc.
    unfold URI.surrogate_at. rewrite Hc. cbn [andb].
    destruct (IH Hs) as [t ->]. now eexists.
Qed.

Lemma decode_encode_char (c : ascii) (t : string) :
  URI.decode (URI.encode_char c ++ t) =
  match URI.decode t with
  | Some u => Some (String c u)
  | None => None
  end.
Proof. each_ascii c; reflexivity. Qed.

(** Decoding the escapes gives the search term back. *)
Lemma decode_encodeURIComponent (s : string) :
  forall t, URI.encodeURIComponent s = Some t -> URI.decode t = Some s.
Proof.
  induction s as [|c s IH]; cbn [URI.encodeURIComponent]; intros t H.
  - now injection H as <-.
  - destruct (URI.surrogate_at c s); [discriminate H|].
    destruct (URI.encodeURIComponent s) as [u|]; [|discriminate H].
    injection H as <-. now rewrite decode_encode_char, (IH u).
Qed.

Lemma bool_text_plain (b : bool) : all_chars plain (SearchApp.bool_text b) = true.
Proof. now destruct b. Qed.

(** ** Splitting *)

Lemma before_plain (c : ascii) (s : string) :
  all_chars (other_than c) s = true -> before c s = s.
Proof.
  induction s as [|d s IH]; simpl; [reflexivity|].
  intros H. apply andb_true_iff in H as [Hd Hs].
  apply negb_true_iff in Hd. rewrite Hd. now rewrite IH.
Qed.

Lemma split_on_single (sep : ascii) (s : string) :
  all_chars (other_than sep) s = true ->
  split_on sep s = [s].
Proof.
  induction s as [|d s IH]; simpl; [reflexivity|].
  intros H. apply andb_true_iff in H as [Hd Hs].
  apply negb_true_iff in Hd. rewrite Hd. now rewrite IH.
Qed.

Lemma split_on_app (sep : ascii) (a b : string) :
  all_chars (other_than sep) a = true ->
  split_on sep (a ++ String sep b) = a :: split_on sep b.
Proof.
  induction a as [|d a IH]; simpl.
  - intros _. now rewrite Ascii.eqb_refl.
  - intros H. apply andb_true_iff in H as [Hd Hs].
    apply negb_true_iff in Hd. rewrite Hd. now rewrite IH.
Qed.

Lemma plain_no_amp (s : string) :
  all_chars plain s = true ->
  all_chars (other_than "&") s = true.
Proof.
  apply all_chars_weaken. unfold plain. intros c H.
  now apply andb_true_iff in H as [H _].
Qed.

Lemma plain_no_hash (s : string) :
  all_chars plain s = true ->
  all_chars (other_than "#") s = true.
Proof.
  apply all_chars_weaken. unfold plain. intros c H.
  now apply andb_true_iff in H as [_ H].
Qed.

(** ** The parameters of the request URL *)

Ltac pieces :=
  repeat first [rewrite all_chars_app | progress cbn [all_chars append]];
  rewrite ?toString_plain, ?bool_text_plain;
  try reflexivity.

Ltac no_hash :=
  repeat first [rewrite all_chars_app | progress cbn [all_chars append]];
  rewrite ?(plain_no_hash _ (toString_plain _)),
    ?(plain_no_hash _ (bool_text_plain _));
  try reflexivity.

Lemma no_amp_piece (k v : string) :
  all_chars plain k = true -> all_chars plain v = true ->
  all_chars (other_than "&") (k ++ v) = true.
Proof.
  intros Hk Hv. apply plain_no_amp. now rewrite all_chars_app, Hk, Hv.
Qed.

Lemma url_with_params (encoded : string) (q : SearchApp.QueryParams) :
  all_chars plain encoded = true ->
  all_chars plain (SearchApp.dataset q) = true ->
  params_of (SearchApp.url_with encoded q) =
    [("search", encoded);
     ("optimized", SearchApp.bool_text (SearchApp.fast q));
     ("limit", JSNumber.toString (SearchApp.limit q));
     ("threshold", JSNumber.toString (SearchApp.threshold q));
     ("speed", JSNumber.toString (SearchApp.speed q));
     ("dataset", SearchApp.dataset q)].
Proof.
  intros He Hd. unfold params_of, query_of.
  assert (E : after "?" (SearchApp.url_with encoded q) =
              ("search=" ++ encoded)
                ++ String "&" (("optimized=" ++ SearchApp.bool_text (SearchApp.fast q))
                ++ String "&" (("limit=" ++ JSNumber.toString (SearchApp.limit q))
                ++ String "&" (("threshold=" ++ JSNumber.toString (SearchApp.threshold q))
                ++ String "&" (("speed=" ++ JSNumber.toString (SearchApp.speed q))
                ++ String "&" ("dataset=" ++ SearchApp.dataset q))))))
    by (rewrite !append_assoc; reflexivity).
  rewrite E. rewrite before_plain.
  2:{ no_hash. now rewrite (plain_no_hash _ Hd), (plain_no_hash _ He). }
  rewrite split_on_app by (apply no_amp_piece; [reflexivity | exact He]).
  rewrite !split_on_app by (apply no_amp_piece; pieces).
  rewrite split_on_single by (apply no_amp_piece; [reflexivity | exact Hd]).
  reflexivity.
Qed.

Lemma url_basic_with_params (base encoded : string) (q : SearchApp.QueryParams) :
  base = SearchApp.endpoint \/ base = SearchApp.endpoint_first ->
  all_chars plain encoded = true ->
  params_of (SearchApp.url_basic_with base encoded q) =
    [("search", encoded);
     ("optimized", SearchApp.bool_text (SearchApp.fast q));
     ("limit", JSNumber.toString (SearchApp.limit q));
     ("threshold", JSNumber.toString (SearchApp.threshold q))].
Proof.
  intros Hb He. unfold params_of, query_of.
  assert (E : after "?" (SearchApp.url_basic_with base encoded q) =
              ("search=" ++ encoded)
                ++ String "&" (("optimized=" ++ SearchApp.bool_text (SearchApp.fast q))
                ++ String "&" (("limit=" ++ JSNumber.toString (SearchApp.limit q))
                ++ String "&" ("threshold=" ++ JSNumber.toString (SearchApp.threshold q)))))
    by (destruct Hb as [-> | ->]; rewrite !append_assoc; reflexivity).
  rewrite E. rewrite before_plain.
  2:{ no_hash. now rewrite (plain_no_hash _ He). }
  rewrite split_on_app by (apply no_amp_piece; [reflexivity | exact He]).
  rewrite !split_on_app by (apply no_amp_piece; pieces).
  rewrite split_on_single by (apply no_amp_piece; pieces).
  reflexivity.
Qed.

End UrlFacts.

(* ================================================================== *)
(** * Facts about [JSON.parse] *)

Module ParseFacts.
Import JSON.

(** Case analysis on the innermost [match] of a hypothesis. *)
Ltac break_in H :=
  match type of H with
  | context [match ?x with _ => _ end] =>
      lazymatch x with
      | context [match _ with _ => _ end] => fail
      | _ => destruct x eqn:?
      end
  end.

Ltac finish H :=
  try discriminate H;
  try (injection H as <- <-; discriminate).

Lemma literal_defined (lit : string) (v : JSValue) (s : string) w r :
  v <> JUndefined -> literal lit v s = Ok w r -> w <> JUndefined.
Proof.
  unfold literal. intros Hv H.
  destruct (Chars.strip_prefix lit s); [|discriminate H].
  now injection H as <- <-.
Qed.

Lemma parse_number_defined (s : string) w r :
  parse_number s = Ok w r -> w <> JUndefined.
Proof.
  unfold parse_number. intros H.
  repeat break_in H; finish H.
Qed.

(** A parsed value is never [undefined], at any depth of the parse. *)
Lemma parse_value_defined (fuel : nat) :
  (forall s w r, parse_value fuel s = Ok w r -> w <> JUndefined)
  /\ (forall acc s w r, parse_elements fuel acc s = Ok w r -> w <> JUndefined)
  /\ (forall acc s w r, parse_members fuel acc s = Ok w r -> w <> JUndefined).
Proof.
  induction fuel as [|fuel (IHv & IHe & IHm)].
  - repeat split; intros; discriminate.
  - repeat split; intros.
    + cbn [parse_value] in H.
      repeat break_in H; finish H;
        eauto using literal_defined, parse_number_defined.
      all: eapply literal_defined; [|exact H]; discriminate.
    + cbn [parse_elements] in H.
      repeat break_in H; finish H; eauto.
    + cbn [parse_members] in H.
      repeat break_in H; finish H; eauto.
Qed.

Lemma parse_defined (s : string) (v : JSValue) :
  parse s = Some v -> v <> JUndefined.
Proof.
  unfold parse, parse_text. intros H.
  destruct (parse_value (fuel_for s) s) as [w r| |] eqn:E; try discriminate H.
  destruct (skip_ws r); [|discriminate H].
  injection H as <-. exact (proj1 (parse_value_defined _) _ _ _ E).
Qed.

(** Reading a property of a parsed value throws only on [null]. *)
Lemma get_parsed (s : string) (v : JSValue) (k : string) :
  parse s = Some v -> v <> JNull -> JS.get v k = Some (JS.field v k).
Proof.
  intros H Hn. pose proof (parse_defined _ _ H) as Hu.
  destruct v; try reflexivity; contradiction.
Qed.

End ParseFacts.

(* ================================================================== *)
(** * Result normalization *)

Module Normalization.
Import SearchApp.

(** The two object literals of the [map] callback. *)
Definition projection (jsonData : JSValue) : JSValue :=
  JObject [("name", JS.field jsonData "name");
           ("location", JS.field jsonData "location");
           ("summary", JS.field jsonData "summary");
           ("text", JS.field jsonData "text");
           ("score", JS.field jsonData "score")].

Definition fallback (text : JSValue) : JSValue := JObject [("text", text)].

Definition named_fields : list string :=
  ["name"; "location"; "summary"; "text"; "score"].

(** A value that is neither [null] nor an object: a boolean, a number, a
    string or an array. *)
Definition scalar (v : JSValue) : bool :=
  match v with
  | JBool _ | JNumber _ | JString _ | JArray _ => true
  | JUndefined | JNull | JObject _ => false
  end.

(** An array element whose properties can be read. *)
Definition readable (result : JSValue) : Prop := JS.get result "text" <> None.

Lemma JSON_parse_get (text jsonData : JSValue) (k : string) :
  JSON_parse text = Some jsonData -> jsonData <> JNull ->
  JS.get jsonData k = Some (JS.field jsonData k).
Proof.
  unfold JSON_parse. destruct (JS.ToString text) as [s|]; [|discriminate].
  apply ParseFacts.get_parsed.
Qed.

Lemma JSON_parse_defined (text jsonData : JSValue) :
  JSON_parse text = Some jsonData -> jsonData <> JUndefined.
Proof.
  unfold JSON_parse. destruct (JS.ToString text) as [s|]; [|discriminate].
  apply ParseFacts.parse_defined.
Qed.

Lemma processResult_parsed (result text jsonData : JSValue) :
  JS.get result "text" = Some text ->
  JSON_parse text = Some jsonData ->
  jsonData <> JNull ->
  processResult result = Some (projection jsonData).
Proof.
  intros Hget Hparse Hnull. unfold processResult.
  rewrite Hget, Hparse.
  now rewrite !(JSON_parse_get _ _ _ Hparse Hnull).
Qed.

Lemma processResult_null (result text : JSValue) :
  JS.get result "text" = Some text ->
  JSON_parse text = Some JNull ->
  processResult result = Some (fallback text).
Proof.
  intros Hget Hparse. unfold processResult. now rewrite Hget, Hparse.
Qed.

Lemma processResult_unparsed (result text : JSValue) :
  JS.get result "text" = Some text ->
  JSON_parse text = None ->
  processResult result = Some (fallback text).
Proof.
  intros Hget Hparse. unfold processResult. now rewrite Hget, Hparse.
Qed.

Lemma processResult_readable (result : JSValue) :
  readable result -> exists out, processResult result = Some out.
Proof.
  unfold readable. intros H.
  destruct (JS.get result "text") as [text|] eqn:Hget; [|contradiction].
  destruct (JSON_parse text) as [v|] eqn:Hparse.
  - destruct v;
      try (eexists; apply (processResult_parsed _ _ _ Hget Hparse); discriminate).
    eexists. exact (processResult_null _ _ Hget Hparse).
  - eexists. exact (processResult_unparsed _ _ Hget Hparse).
Qed.

Lemma mapM_nth {A B} (f : A -> option B) (l : list A) (out : list B) :
  mapM f l = Some out ->
  List.length out = List.length l
  /\ forall i x, nth_error l i = Some x -> nth_error out i = f x.
Proof.
  revert out. induction l as [|a l IH]; simpl; intros out H.
  - injection H as <-. split; [reflexivity|]. intros [|i] x Hx; discriminate Hx.
  - destruct (f a) as [b|] eqn:Ea; [|discriminate H].
    destruct (mapM f l) as [bs|]; [|discriminate H].
    injection H as <-. destruct (IH bs eq_refl) as [Hlen Hnth].
    split; [simpl; now rewrite Hlen|].
    intros [|i] x Hx; simpl in *.
    + injection Hx as <-. now rewrite Ea.
    + now apply Hnth.
Qed.

Lemma mapM_total {A B} (f : A -> option B) (l : list A) :
  Forall (fun x => exists y, f x = Some y) l -> exists out, mapM f l = Some out.
Proof.
  induction 1 as [|a l [b Hb] _ [bs Hbs]]; simpl.
  - now eexists.
  - rewrite Hb, Hbs. now eexists.
Qed.

(** ** Sample items *)

Definition item_of_text (s : string) : JSValue := JObject [("text", JString s)].

(** The text [{"name":"A","score":0.9}]. *)
Definition sample_text : string :=
  "{" ++ Chars.quoted "name" ++ ":" ++ Chars.quoted "A" ++ ","
      ++ Chars.quoted "score" ++ ":0.9}".

(** The text [{"name":"A","id":7}]. *)
Definition extra_text : string :=
  "{" ++ Chars.quoted "name" ++ ":" ++ Chars.quoted "A" ++ ","
      ++ Chars.quoted "id" ++ ":7}".

Definition all_undefined : JSValue :=
  JObject [("name", JUndefined); ("location", JUndefined);
           ("summary", JUndefined); ("text", JUndefined);
           ("score", JUndefined)].

(** ** Parsed text *)

(** C2, as stated, fails on the text [null]: it parses as JSON, yet the
    item is normalized to the fallback record holding the raw text and
    not to a record of five fields. *)
Lemma normalize_null_text_falls_back :
  JSON.parse "null" = Some JNull
  /\ processResult (item_of_text "null") = Some (JObject [("text", JString "null")])
  /\ processResult (item_of_text "null") <> Some (projection JNull).
Proof.
  repeat split; try reflexivity. discriminate.
Qed.

(** C2 (amended): for every raw item whose [text] is a string that parses
    as a JSON value other than [null], normalization returns the record
    whose [name], [location], [summary], [text] and [score] are the fields
    of that name of the parsed value, [undefined] where absent; the parsed
    value's own [text] takes the place of the raw text. *)
Theorem normalize_parsed_text (result : JSValue) (s : string) (jsonData : JSValue) :
  JS.get result "text" = Some (JString s) ->
  JSON.parse s = Some jsonData ->
  jsonData <> JNull ->
  processResult result =
    Some (JObject [("name", JS.field jsonData "name");
                   ("location", JS.field jsonData "location");
                   ("summary", JS.field jsonData "summary");
                   ("text", JS.field jsonData "text");
                   ("score", JS.field jsonData "score")]).
Proof.
  intros Hget Hparse Hnull.
  exact (processResult_parsed result (JString s) jsonData Hget Hparse Hnull).
Qed.

(** The item [{text: '{"name":"A","score":0.9}'}] becomes
    [{name: "A", score: 0.9}] with the other three fields undefined. *)
Lemma normalize_parsed_text_example :
  processResult (item_of_text sample_text) =
    Some (JObject [("name", JString "A"); ("location", JUndefined);
                   ("summary", JUndefined); ("text", JUndefined);
                   ("score", JNumber 0.9)]).
Proof.
  refine (normalize_parsed_text (item_of_text sample_text) sample_text
            (JObject [("name", JString "A"); ("score", JNumber 0.9)]) _ _ _).
  - reflexivity.
  - vm_compute. reflexivity.
  - discriminate.
Defined.

(** ** Per-item recovery *)

(** The body
    [{"embedding_time":1,"search_time":2,"results":[null,{"text":"plain prose"}]}]. *)
Definition body_with_null_item : string :=
  "{" ++ Chars.quoted "embedding_time" ++ ":1,"
      ++ Chars.quoted "search_time" ++ ":2,"
      ++ Chars.quoted "results" ++ ":[null,{" ++ Chars.quoted "text" ++ ":"
      ++ Chars.quoted "plain prose" ++ "}]}".

(** C3, as stated, fails on a results array that holds [null]: reading
    [result.text] throws in the [try] and again in the [catch] of the
    callback, the [map] is abandoned and no normalized array exists; the
    response ends in the error state, the well-formed item lost with
    it. *)
Lemma normalize_null_item_aborts :
  processedResults (JArray [JNull; item_of_text "plain prose"]) = None
  /\ (let st := search_resume 0 (Response 200 body_with_null_item) initial in
      error st = Some failure_message /\ results st = []).
Proof.
  split; [reflexivity|]. vm_compute. split; reflexivity.
Qed.

(** C3 (amended): an item that is not [null] and whose text does not parse
    as JSON is normalized, without an exception, to the record holding
    just the raw text, and this is settled item by item: for every raw
    results array without a [null] item, the normalized array has the
    length of the raw array and its entry [i] is the normalization of raw
    item [i] alone. *)
Theorem normalize_per_item (items : list JSValue) :
  Forall readable items ->
  exists out,
    processedResults (JArray items) = Some out
    /\ List.length out = List.length items
    /\ (forall i result, nth_error items i = Some result ->
                         nth_error out i = processResult result)
    /\ (forall i result text,
          nth_error items i = Some result ->
          JS.get result "text" = Some text ->
          JSON_parse text = None ->
          nth_error out i = Some (JObject [("text", text)])).
Proof.
  intros Hitems.
  destruct (mapM_total processResult items) as [out Hout].
  { eapply Forall_impl; [|exact Hitems]. exact processResult_readable. }
  exists out. destruct (mapM_nth _ _ _ Hout) as [Hlen Hnth].
  repeat split; try assumption.
  intros i result text Hi Hget Hparse.
  rewrite (Hnth i result Hi).
  exact (processResult_unparsed result text Hget Hparse).
Qed.

Definition three_items : list JSValue :=
  [item_of_text "plain prose"; item_of_text "{bad"; item_of_text sample_text].

(** Two malformed items followed by a well-formed one. *)
Lemma normalize_per_item_example :
  exists out,
    processedResults (JArray three_items) = Some out
    /\ List.length out = 3%nat
    /\ nth_error out 0 = Some (JObject [("text", JString "plain prose")])
    /\ nth_error out 1 = Some (JObject [("text", JString "{bad")])
    /\ nth_error out 2 = Some (projection (JObject [("name", JString "A");
                                                    ("score", JNumber 0.9)])).
Proof.
  destruct (normalize_per_item three_items) as (out & Hout & Hlen & Hnth & Hraw).
  { repeat constructor; discriminate. }
  exists out. split; [exact Hout|]. split; [exact Hlen|].
  split; [|split].
  - exact (Hraw 0%nat _ (JString "plain prose") eq_refl eq_refl eq_refl).
  - exact (Hraw 1%nat _ (JString "{bad") eq_refl eq_refl eq_refl).
  - rewrite (Hnth 2%nat _ eq_refl). vm_compute. reflexivity.
Defined.

(** ** Unrecognized fields *)

(** C9, as stated, fails: the field [id] of the parsed object (and of the
    raw item) does not reach the normalized record. *)
Lemma normalize_drops_extra_fields :
  let result := JObject [("text", JString extra_text); ("id", JNumber 7)] in
  JSON.parse extra_text =
    Some (JObject [("name", JString "A"); ("id", JNumber 7)])
  /\ exists out,
       processResult result = Some out
       /\ JS.field out "name" = JString "A"
       /\ JS.field out "id" = JUndefined.
Proof.
  split; [vm_compute; reflexivity|].
  eexists. split; [vm_compute; reflexivity|]. split; reflexivity.
Qed.

(** C9 (amended): for every raw item whose text parses as a JSON object,
    the normalized record has exactly the five named fields, each taken
    from the parsed object; every other field of the parsed object is
    dropped. *)
Theorem normalize_named_fields_only
        (result text : JSValue) (members : list (string * JSValue)) :
  JS.get result "text" = Some text ->
  JSON_parse text = Some (JObject members) ->
  exists fields,
    processResult result = Some (JObject fields)
    /\ map fst fields = named_fields
    /\ (forall k, In k named_fields -> JS.lookup k fields = JS.lookup k members)
    /\ (forall k, ~ In k named_fields -> JS.lookup k fields = JUndefined).
Proof.
  intros Hget Hparse.
  eexists. split.
  - apply (processResult_parsed _ _ _ Hget Hparse). discriminate.
  - split; [reflexivity|]. split.
    + intros k Hk. simpl in Hk.
      repeat (destruct Hk as [<- | Hk]; [reflexivity|]). contradiction.
    + intros k Hk. cbn [JS.lookup JS.field].
      repeat match goal with
             | |- context [String.eqb k ?x] =>
                 destruct (String.eqb_spec k x) as [->|_];
                 [exfalso; apply Hk; simpl; tauto|]
             end.
      reflexivity.
Qed.

Lemma normalize_named_fields_only_example :
  exists fields,
    processResult (JObject [("text", JString extra_text); ("id", JNumber 7)])
      = Some (JObject fields)
    /\ map fst fields = named_fields
    /\ (forall k, In k named_fields ->
                  JS.lookup k fields =
                  JS.lookup k [("name", JString "A"); ("id", JNumber 7)])
    /\ (forall k, ~ In k named_fields -> JS.lookup k fields = JUndefined).
Proof.
  refine (normalize_named_fields_only
            (JObject [("text", JString extra_text); ("id", JNumber 7)])
            (JString extra_text)
            [("name", JString "A"); ("id", JNumber 7)] _ _).
  - reflexivity.
  - vm_compute. reflexivity.
Defined.

(** ** Edge cases *)

(** C10: an item whose text parses as [null] and an item with no [text]
    at all both take the fallback branch and give [{text: rawText}]
    ([rawText] being [undefined] in the second case); an item whose text
    parses as a value that is neither [null] nor an object gives the
    record whose five fields are all [undefined], the raw text being
    lost. *)
Theorem normalize_edge_items (result text : JSValue) :
  JS.get result "text" = Some text ->
  (JSON_parse text = Some JNull ->
   processResult result = Some (JObject [("text", text)]))
  /\ (text = JUndefined ->
      processResult result = Some (JObject [("text", JUndefined)]))
  /\ (forall v, JSON_parse text = Some v -> scalar v = true ->
                processResult result = Some all_undefined).
Proof.
  intros Hget. split; [|split].
  - intros Hparse. exact (processResult_null _ _ Hget Hparse).
  - intros ->. exact (processResult_unparsed _ _ Hget eq_refl).
  - intros v Hparse Hv.
    rewrite (processResult_parsed _ _ _ Hget Hparse) by (now destruct v).
    now destruct v.
Qed.

Lemma normalize_edge_items_example :
  processResult (item_of_text "null") = Some (JObject [("text", JString "null")])
  /\ processResult (JObject [("name", JString "A")]) = Some (JObject [("text", JUndefined)])
  /\ processResult (item_of_text "42") = Some all_undefined
  /\ processResult (item_of_text "true") = Some all_undefined.
Proof.
  split; [|split; [|split]].
  - exact (proj1 (normalize_edge_items (item_of_text "null") (JString "null") eq_refl)
             eq_refl).
  - exact (proj1 (proj2 (normalize_edge_items (JObject [("name", JString "A")])
                           JUndefined eq_refl)) eq_refl).
  - exact (proj2 (proj2 (normalize_edge_items (item_of_text "42") (JString "42")
                           eq_refl)) (JNumber 42) eq_refl eq_refl).
  - exact (proj2 (proj2 (normalize_edge_items (item_of_text "true") (JString "true")
                           eq_refl)) (JBool true) eq_refl eq_refl).
Defined.

End Normalization.

(* ================================================================== *)
(** * The debounced controller *)

Module Controller.
Import SearchApp.

(** ** Bursts of edits *)

(** Edits that each follow the previous one after a pause. *)
Definition burst (rest : list (Z * Edit)) : list Event :=
  flat_map (fun ge => [Elapse (fst ge); Edited (snd ge)]) rest.

Definition apply_edits (es : list Edit) (q : QueryParams) : QueryParams :=
  fold_left (fun p e => apply_edit e p) es q.

(** Every edit changes the value of its parameter; a handler that stores
    the value already held triggers no render and no effect. *)
Fixpoint all_effective (q : QueryParams) (es : list Edit) : bool :=
  match es with
  | [] => true
  | e :: r =>
      negb (same_params q (apply_edit e q)) && all_effective (apply_edit e q) r
  end.

(** The debounce timer is set for the current parameters, 500 ms after
    the current time. *)
Definition armed (st : State) : Prop :=
  timer st = Some (now st + wait, params st).

(** What the view shows of the request. *)
Definition request_state (st : State)
  : list JSValue * bool * option string * option TimingMetrics :=
  (results st, loading st, error st, timingMetrics st).

Lemma nonempty_truthy (s : string) :
  s <> EmptyString -> JS.truthy (JString s) = true.
Proof.
  intros H. simpl. apply negb_true_iff. now apply String.eqb_neq.
Qed.

Lemma on_edit_changed (e : Edit) (st : State) :
  same_params (params st) (apply_edit e (params st)) = false ->
  on_edit e st =
    debouncedSearch (apply_edit e (params st))
                    (setParams (apply_edit e (params st)) st).
Proof. unfold on_edit. now intros ->. Qed.

Lemma on_edit_armed (e : Edit) (st : State) :
  same_params (params st) (apply_edit e (params st)) = false ->
  let st' := on_edit e st in
  armed st' /\ params st' = apply_edit e (params st)
  /\ sent st' = sent st /\ now st' = now st
  /\ request_state st' = request_state st.
Proof.
  intros H. cbv zeta. rewrite (on_edit_changed _ _ H). now repeat split.
Qed.

Lemma elapse_early (dt : Z) (st : State) :
  armed st -> dt < wait -> elapse dt st = setNow (now st + dt) st.
Proof.
  unfold armed, elapse. intros -> H.
  destruct (Z.leb_spec (now st + wait) (now st + dt)); [lia | reflexivity].
Qed.

Lemma elapse_due (dt : Z) (st : State) :
  armed st -> wait <= dt ->
  elapse dt st =
    setNow (now st + dt)
           (search_begin (params st) (setNow (now st + wait) (setTimer None st))).
Proof.
  unfold armed, elapse. intros -> H.
  destruct (Z.leb_spec (now st + wait) (now st + dt)); [reflexivity | lia].
Qed.

Lemma url_encoded (q : QueryParams) (encoded : string) :
  URI.encodeURIComponent (searchTerm q) = Some encoded ->
  url q = Some (url_with encoded q).
Proof. unfold url. now intros ->. Qed.

Lemma search_begin_sends (q : QueryParams) (encoded : string) (st : State) :
  searchTerm q <> EmptyString ->
  URI.encodeURIComponent (searchTerm q) = Some encoded ->
  sent (search_begin q st) =
    (sent st ++ [mkRequest (url_with encoded q) (performance_now st)])%list
  /\ loading (search_begin q st) = true
  /\ error (search_begin q st) = None
  /\ timingMetrics (search_begin q st) = None
  /\ results (search_begin q st) = results st.
Proof.
  intros H E. unfold search_begin.
  rewrite (nonempty_truthy _ H), (url_encoded _ _ E). now repeat split.
Qed.

Lemma search_begin_throws (q : QueryParams) (st : State) :
  searchTerm q <> EmptyString ->
  URI.encodeURIComponent (searchTerm q) = None ->
  sent (search_begin q st) = sent st
  /\ loading (search_begin q st) = false
  /\ error (search_begin q st) = Some failure_message
  /\ console (search_begin q st) = (console st ++ [(log_label, URIError)])%list.
Proof.
  intros H E. unfold search_begin, url.
  rewrite (nonempty_truthy _ H), E. now repeat split.
Qed.

Lemma search_begin_empty (q : QueryParams) (st : State) :
  searchTerm q = EmptyString ->
  search_begin q st = setTimingMetrics None (setResults [] st).
Proof. unfold search_begin. now intros ->. Qed.

Lemma run_app (a b : list Event) (st : State) :
  run (a ++ b) st = run b (run a st).
Proof. apply fold_left_app. Qed.

Lemma run_snoc (evs : list Event) (ev : Event) (st : State) :
  run (evs ++ [ev]) st = step ev (run evs st).
Proof. now rewrite run_app. Qed.

Lemma run_cons (ev : Event) (evs : list Event) (st : State) :
  run (ev :: evs) st = run evs (step ev st).
Proof. reflexivity. Qed.

Lemma burst_cons (gap : Z) (e : Edit) (rest : list (Z * Edit)) :
  burst ((gap, e) :: rest) = Elapse gap :: Edited e :: burst rest.
Proof. reflexivity. Qed.

(** While the burst lasts, at every point of it, nothing is sent. *)
Lemma burst_prefix (rest : list (Z * Edit)) :
  forall st, armed st ->
  all_effective (params st) (map snd rest) = true ->
  Forall (fun ge => 0 <= fst ge < wait) rest ->
  forall k, sent (run (firstn k (burst rest)) st) = sent st.
Proof.
  induction rest as [|[gap e] rest IH]; intros st Harmed Heff Hgaps k.
  - now destruct k.
  - simpl in Heff. apply andb_true_iff in Heff as [He Heff].
    apply negb_true_iff in He.
    inversion Hgaps as [|? ? Hgap Hgaps']; subst. simpl in Hgap.
    destruct k as [|[|k]]; [reflexivity | |].
    + simpl. now rewrite elapse_early by (assumption || lia).
    + rewrite burst_cons. cbn [firstn]. rewrite !run_cons. cbn [step].
      rewrite elapse_early by (assumption || lia).
      destruct (on_edit_armed e (setNow (now st + gap) st) He)
        as (Ha & Hp & Hs & _).
      rewrite IH; [exact Hs | exact Ha | now rewrite Hp | exact Hgaps'].
Qed.

(** After the burst the timer is set for the final parameters. *)
Lemma burst_end (rest : list (Z * Edit)) :
  forall st, armed st ->
  all_effective (params st) (map snd rest) = true ->
  Forall (fun ge => 0 <= fst ge < wait) rest ->
  let st' := run (burst rest) st in
  armed st'
  /\ params st' = apply_edits (map snd rest) (params st)
  /\ sent st' = sent st
  /\ request_state st' = request_state st.
Proof.
  induction rest as [|[gap e] rest IH]; intros st Harmed Heff Hgaps.
  - now repeat split.
  - simpl in Heff. apply andb_true_iff in Heff as [He Heff].
    apply negb_true_iff in He.
    inversion Hgaps as [|? ? Hgap Hgaps']; subst. simpl in Hgap.
    cbv zeta. rewrite burst_cons, !run_cons. cbn [step map snd].
    rewrite elapse_early by (assumption || lia).
    destruct (on_edit_armed e (setNow (now st + gap) st) He)
      as (Ha & Hp & Hs & _ & Hr).
    destruct (IH (on_edit e (setNow (now st + gap) st)) Ha) as (Ha' & Hp' & Hs' & Hr');
      [now rewrite Hp | exact Hgaps' |].
    repeat split.
    + exact Ha'.
    + rewrite Hp'. now rewrite Hp.
    + now rewrite Hs'.
    + now rewrite Hr'.
Qed.

(** ** One request per burst *)

(** The term made of the unpaired surrogate U+D800. *)
Definition lone_surrogate : string := Numeric.string_of_codes [237; 160; 128].

(** C1, as stated, fails in two ways.  A handler call that stores the value
    already held (here the speed button that is already selected) re-runs
    no effect and does not restart the window: [a] typed at 0, speed 0
    chosen again at 400, [ab] typed at 800, all less than 500 ms apart,
    send two requests, the first one for the intermediate term [a].  And
    a final term that [encodeURIComponent] rejects is not sent at all: the
    error message is set instead. *)
Lemma debounce_same_value_edit_splits_burst :
  map req_url
      (sent (run [Edited (SearchChange "a"); Elapse 400;
                  Edited (SpeedChange 0); Elapse 400;
                  Edited (SearchChange "ab"); Elapse 500] mounted)) =
    [endpoint ++ "?search=a&optimized=false&limit=10&threshold=0.5"
              ++ "&speed=0&dataset=reviews";
     endpoint ++ "?search=ab&optimized=false&limit=10&threshold=0.5"
              ++ "&speed=0&dataset=reviews"]
  /\ (let st := run [Edited (SearchChange lone_surrogate); Elapse 500] mounted in
      sent st = [] /\ error st = Some failure_message).
Proof.
  split; [|split]; vm_compute; reflexivity.
Qed.

(** C1 (amended): in a sequence of parameter edits, each less than 500 ms
    after the one before and each changing the value of its parameter,
    with a final search term that is non-empty and can be encoded (holds
    no unpaired surrogate), nothing is sent while the edits arrive or
    during the 500 ms that follow; when those 500 ms have passed exactly
    one request is sent, for the parameter values held then. *)
Theorem debounce_single_request
        (st : State) (e : Edit) (rest : list (Z * Edit)) (encoded : string) :
  all_effective (params st) (e :: map snd rest) = true ->
  Forall (fun ge => 0 <= fst ge < wait) rest ->
  searchTerm (apply_edits (e :: map snd rest) (params st)) <> EmptyString ->
  URI.encodeURIComponent
    (searchTerm (apply_edits (e :: map snd rest) (params st))) = Some encoded ->
  let evs := Edited e :: burst rest in
  let q := apply_edits (e :: map snd rest) (params st) in
  (forall k, sent (run (firstn k evs) st) = sent st)
  /\ params (run evs st) = q
  /\ (forall dt, dt < wait -> sent (run (evs ++ [Elapse dt]) st) = sent st)
  /\ (forall dt, wait <= dt ->
        sent (run (evs ++ [Elapse dt]) st) =
          (sent st ++ [mkRequest (url_with encoded q)
                         (JSNumber.of_Z (now (run evs st) + wait))])%list).
Proof.
  intros Heff Hgaps Hterm Henc evs q.
  cbn [all_effective] in Heff. apply andb_true_iff in Heff as [He Heff].
  apply negb_true_iff in He.
  destruct (on_edit_armed e st He) as (Ha & Hp & Hs & _).
  assert (Heff' : all_effective (params (on_edit e st)) (map snd rest) = true)
    by now rewrite Hp.
  destruct (burst_end rest (on_edit e st) Ha Heff' Hgaps) as (Ha' & Hp' & Hs' & _).
  assert (Hq : params (run evs st) = q).
  { unfold evs, q. rewrite run_cons. cbn [step]. rewrite Hp', Hp. reflexivity. }
  assert (Hsent : sent (run evs st) = sent st).
  { unfold evs. rewrite run_cons. cbn [step]. now rewrite Hs'. }
  assert (Harmed : armed (run evs st)) by exact Ha'.
  split; [|split; [exact Hq|split]].
  - intros [|k]; [reflexivity|].
    unfold evs. cbn [firstn]. rewrite run_cons. cbn [step].
    now rewrite (burst_prefix rest (on_edit e st) Ha Heff' Hgaps k).
  - intros dt Hdt. rewrite run_snoc. cbn [step].
    now rewrite (elapse_early dt _ Harmed Hdt).
  - intros dt Hdt. rewrite run_snoc. cbn [step].
    rewrite (elapse_due dt _ Harmed Hdt), Hq.
    change (sent (setNow ?t ?s)) with (sent s).
    destruct (search_begin_sends q encoded
                (setNow (now (run evs st) + wait) (setTimer None (run evs st)))
                Hterm Henc) as [-> _].
    cbn [sent setNow setTimer]. now rewrite Hsent.
Qed.

(** Typing [c], [co], [coffee] 100 ms apart after mounting, then waiting
    600 ms: one request, for [coffee]. *)
Lemma debounce_single_request_example :
  sent (run [Edited (SearchChange "c"); Elapse 100;
             Edited (SearchChange "co"); Elapse 100;
             Edited (SearchChange "coffee"); Elapse 600] mounted) =
    [mkRequest
       ("https://po65lcryad.execute-api.us-east-1.amazonaws.com/dev/search"
          ++ "?search=coffee&optimized=false&limit=10&threshold=0.5"
          ++ "&speed=0&dataset=reviews")
       700].
Proof.
  refine (proj2 (proj2 (proj2
            (debounce_single_request mounted (SearchChange "c")
               [(100, SearchChange "co"); (100, SearchChange "coffee")]
               "coffee" _ _ _ _)))
            600 _).
  - reflexivity.
  - repeat constructor; simpl; lia.
  - discriminate.
  - reflexivity.
  - unfold wait. lia.
Defined.

(** ** Sample runs *)

(** The body
    [{"embedding_time":30000000,"search_time":60000000,"results":[{"text":"plain prose"}]}]. *)
Definition sample_body : string :=
  "{" ++ Chars.quoted "embedding_time" ++ ":30000000,"
      ++ Chars.quoted "search_time" ++ ":60000000,"
      ++ Chars.quoted "results" ++ ":[{" ++ Chars.quoted "text" ++ ":"
      ++ Chars.quoted "plain prose" ++ "}]}".

(** A search for [coffee] answered with [sample_body]. *)
Definition shown : State :=
  run [Edited (SearchChange "coffee"); Elapse 500;
       Settle 0 (Response 200 sample_body)] mounted.

(** A search for [coffee] answered with status 500. *)
Definition failed : State :=
  run [Edited (SearchChange "coffee"); Elapse 500;
       Settle 0 (Response 500 EmptyString)] mounted.

(** ** Clearing the search term *)

(** C4, as stated, fails: right after the term is cleared the results of
    the previous search are still in place, so the state is not idle
    before the debounce window has passed; and a blank term is not empty:
    a single space is sent to the server. *)
Lemma clear_is_not_immediate :
  (let cleared := step (Edited (SearchChange EmptyString)) shown in
   is_idle cleared = false
   /\ results cleared = [JObject [("text", JString "plain prose")]]
   /\ timer cleared = Some (now cleared + wait, params cleared))
  /\ map req_url (sent (run [Edited (SearchChange " "); Elapse 500] mounted)) =
       [endpoint ++ "?search=%20&optimized=false&limit=10&threshold=0.5"
                 ++ "&speed=0&dataset=reviews"].
Proof.
  split; [split; [|split]|]; vm_compute; reflexivity.
Qed.

(** White space of the keyboard: space, tab, line feed, vertical tab, form
    feed, carriage return. *)
Definition is_space (c : ascii) : bool :=
  (Chars.code c =? 32) || Chars.in_range 9 13 c.

Lemma space_not_surrogate (c : ascii) :
  is_space c = true -> negb (Chars.code c =? 237) = true.
Proof.
  unfold is_space, Chars.in_range. intros H.
  apply negb_true_iff. apply Z.eqb_neq.
  apply orb_true_iff in H as [H | H].
  - apply Z.eqb_eq in H. lia.
  - apply andb_true_iff in H as [_ H]. apply Z.leb_le in H. lia.
Qed.

(** C4 (amended): when the search term is edited to the empty string,
    nothing changes at the time of the edit nor during the 500 ms after
    it; once the debounce window has passed without another edit, the
    results are emptied and the timing is cleared, no request having been
    sent.  The check of the term is part of the debounced function.  A
    term made of white space only is not empty: when its window has
    passed it is sent like any other term. *)
Theorem clear_resets_after_window (st : State) :
  searchTerm (params st) <> EmptyString ->
  let cleared := step (Edited (SearchChange EmptyString)) st in
  (results cleared = results st /\ timingMetrics cleared = timingMetrics st
   /\ sent cleared = sent st)
  /\ (forall dt, dt < wait ->
        let waiting := step (Elapse dt) cleared in
        results waiting = results st /\ timingMetrics waiting = timingMetrics st
        /\ sent waiting = sent st)
  /\ (forall dt, wait <= dt ->
        let settled := step (Elapse dt) cleared in
        results settled = [] /\ timingMetrics settled = None
        /\ sent settled = sent st)
  /\ (forall blank dt,
        blank <> EmptyString -> Chars.all_chars is_space blank = true ->
        searchTerm (params st) <> blank ->
        wait <= dt ->
        exists encoded,
          URI.encodeURIComponent blank = Some encoded
          /\ sent (run [Edited (SearchChange blank); Elapse dt] st) =
               (sent st ++
                [mkRequest (url_with encoded
                              (apply_edit (SearchChange blank) (params st)))
                           (JSNumber.of_Z (now st + wait))])%list).
Proof.
  intros Hterm cleared.
  assert (He : same_params (params st)
                 (apply_edit (SearchChange EmptyString) (params st)) = false).
  { unfold same_params. cbn [apply_edit searchTerm].
    apply String.eqb_neq in Hterm. now rewrite Hterm. }
  destruct (on_edit_armed _ st He) as (Ha & Hp & Hs & _ & Hr).
  fold (step (Edited (SearchChange EmptyString)) st) in Ha, Hp, Hs, Hr.
  fold cleared in Ha, Hp, Hs, Hr.
  injection Hr as Hres _ _ Htim.
  split; [now repeat split|split; [|split]].
  - intros dt Hdt. cbn [step]. now rewrite (elapse_early dt _ Ha Hdt).
  - intros dt Hdt. cbn [step]. rewrite (elapse_due dt _ Ha Hdt), Hp.
    rewrite search_begin_empty by reflexivity.
    cbn [results timingMetrics sent setNow setTimer setTimingMetrics setResults].
    now repeat split.
  - intros blank dt Hblank Hspace Ediff Hdt.
    destruct (UrlFacts.encodeURIComponent_total blank) as [encoded Henc].
    { eapply StringFacts.all_chars_weaken; [|exact Hspace].
      exact space_not_surrogate. }
    exists encoded. split; [exact Henc|].
    rewrite !run_cons. cbn [run fold_left step].
    assert (Hb : same_params (params st)
                   (apply_edit (SearchChange blank) (params st)) = false).
    { unfold same_params. cbn [apply_edit searchTerm].
      apply String.eqb_neq in Ediff. now rewrite Ediff. }
    destruct (on_edit_armed _ st Hb) as (Hab & Hpb & Hsb & Hnb & _).
    rewrite (elapse_due dt _ Hab Hdt), Hpb.
    change (sent (setNow ?t ?s)) with (sent s).
    destruct (search_begin_sends (apply_edit (SearchChange blank) (params st))
                encoded
                (setNow (now (on_edit (SearchChange blank) st) + wait)
                   (setTimer None (on_edit (SearchChange blank) st)))
                Hblank Henc) as [-> _].
    cbn [sent setNow setTimer]. rewrite Hsb.
    unfold performance_now. cbn [now setNow setTimer]. now rewrite Hnb.
Qed.

(** Clearing the term of [shown]: still shown during the window, emptied
    after it; and a tab followed by a space, typed after mounting, is
    sent. *)
Lemma clear_resets_after_window_example :
  results (run [Edited (SearchChange EmptyString); Elapse 499] shown)
    = results shown
  /\ results (run [Edited (SearchChange EmptyString); Elapse 500] shown) = []
  /\ timingMetrics (run [Edited (SearchChange EmptyString); Elapse 500] shown) = None
  /\ sent (run [Edited (SearchChange EmptyString); Elapse 500] shown) = sent shown
  /\ exists encoded,
       URI.encodeURIComponent (String (Chars.chr 9) " ") = Some encoded
       /\ sent (run [Edited (SearchChange (String (Chars.chr 9) " ")); Elapse 500]
                    shown) =
            (sent shown ++
             [mkRequest (url_with encoded
                           (apply_edit (SearchChange (String (Chars.chr 9) " "))
                                       (params shown)))
                        (JSNumber.of_Z (now shown + wait))])%list.
Proof.
  assert (H : searchTerm (params shown) <> EmptyString) by discriminate.
  destruct (clear_resets_after_window shown H) as (_ & Hearly & Hdue & Hblank).
  destruct (Hearly 499) as [E _]; [unfold wait; lia|].
  destruct (Hdue 500) as (R & T & S); [unfold wait; lia|].
  split; [exact E|split; [exact R|split; [exact T|split; [exact S|]]]].
  apply Hblank; [discriminate | reflexivity | discriminate | unfold wait; lia].
Defined.


(** C5 on the code: after a failed search, clearing the term and letting
    the window pass empties the results and sends nothing, but the error
    message stays, so the state is not idle. *)
Lemma clear_after_error_keeps_error :
  let cleared := run [Edited (SearchChange EmptyString); Elapse 500] failed in
  error failed = Some failure_message
  /\ error cleared = Some failure_message
  /\ results cleared = []
  /\ sent cleared = sent failed
  /\ is_idle cleared = false.
Proof.
  cbv zeta. repeat apply conj; vm_compute; reflexivity.
Qed.

(** ** Failed requests *)

Definition status_message (status : Z) : string :=
  "HTTP error! Status: " ++ JSNumber.toString (JSNumber.of_Z status).

(** The three ways a request fails before any of its data is used, with
    the exception each raises. *)
Inductive Failed : FetchOutcome -> Thrown -> Prop :=
| failed_network :
    Failed NetworkFailure FetchFailed
| failed_status (status : Z) (body : string) :
    ok status = false ->
    Failed (Response status body) (HttpError (status_message status))
| failed_body (status : Z) (body : string) :
    ok status = true -> JSON.parse body = None ->
    Failed (Response status body) BodySyntaxError.

(** C6, as stated, fails: when a search that showed results is followed
    by one that fails, the results array is not empty in the error
    state; it still holds the earlier results. *)
Lemma failure_keeps_earlier_results :
  let later := run [Edited (SearchChange "coffees"); Elapse 500;
                    Settle 1 (Response 500 EmptyString)] shown in
  error later = Some failure_message
  /\ results later = [JObject [("text", JString "plain prose")]]
  /\ results later <> [].
Proof.
  split; [|split]; [vm_compute; reflexivity ..|discriminate].
Qed.

(** C6 (amended): a request that ends in a status outside 200..299, in a
    network failure or in a body that is not JSON puts the one generic
    message in [error], whatever the status was, adds the exception to the
    console, sends nothing again, clears the loading flag and leaves the
    results array as it was before (empty if it was empty). *)
Theorem failure_reports_generic_error
        (startTime : float) (o : FetchOutcome) (err : Thrown) (st : State) :
  Failed o err ->
  let st' := search_resume startTime o st in
  error st' = Some failure_message
  /\ loading st' = false
  /\ results st' = results st
  /\ timingMetrics st' = timingMetrics st
  /\ sent st' = sent st
  /\ console st' = (console st ++ [(log_label, err)])%list.
Proof.
  intros H. destruct H as [|status body Hok|status body Hok Hbody];
    cbv [search_resume try_catch_finally bind throw ret orThrow caught];
    rewrite ?Hok; cbn [negb]; rewrite ?Hbody;
    repeat split; reflexivity.
Qed.

(** Status 500 on the first search after mounting: the message, no
    results, not loading, the status in the console only. *)
Lemma failure_reports_generic_error_example :
  error failed = Some failure_message
  /\ loading failed = false
  /\ results failed = []
  /\ console failed = [(log_label, HttpError "HTTP error! Status: 500")].
Proof.
  vm_compute.
  pose (before := run [Edited (SearchChange "coffee"); Elapse 500] mounted).
  destruct (failure_reports_generic_error 500 (Response 500 EmptyString)
              (HttpError (status_message 500))
              (setAwaiting [] before)
              (failed_status 500 EmptyString eq_refl))
    as (He & Hl & Hr & _ & _ & Hc).
  vm_compute in He, Hl, Hr, Hc.
  split; [exact He|split; [exact Hl|split; [exact Hr|exact Hc]]].
Defined.

(** ** Timing *)

(** C7: on a response with a 2xx status and a JSON body, the timing shown
    has [embeddings] and [search] equal to the body's [embedding_time] and
    [search_time] (as numbers) divided by 1,000,000, and [total] equal to
    the clock reading at completion minus the one taken before the
    request. *)
Theorem success_timing
        (startTime : float) (status : Z) (body : string)
        (data embeddingsTime searchTime : JSValue)
        (embeddingsNs searchNs : float) (st : State) :
  ok status = true ->
  JSON.parse body = Some data ->
  JS.get data "embedding_time" = Some embeddingsTime ->
  JS.get data "search_time" = Some searchTime ->
  Numeric.ToNumber embeddingsTime = Some embeddingsNs ->
  Numeric.ToNumber searchTime = Some searchNs ->
  timingMetrics (search_resume startTime (Response status body) st) =
    Some (mkTiming (embeddingsNs / 1000000)
                   (searchNs / 1000000)
                   (performance_now st - startTime)).
Proof.
  intros Hok Hbody He Hs Hen Hsn.
  cbv [search_resume try_catch_finally bind throw ret orThrow exec read caught].
  rewrite Hok. cbn [negb]. rewrite Hbody, He, Hs, Hen, Hsn.
  destruct (JS.get data "results") as [rawResults|]; [|reflexivity].
  destruct (processedResults rawResults); reflexivity.
Qed.

(** [embedding_time = 30000000] and [search_time = 60000000] give 30 ms
    and 60 ms; the request began at 500 and completed at 620. *)
Lemma success_timing_example :
  timingMetrics
    (run [Edited (SearchChange "coffee"); Elapse 500; Elapse 120;
          Settle 0 (Response 200 sample_body)] mounted)
  = Some (mkTiming 30 60 120).
Proof.
  pose (before := run [Edited (SearchChange "coffee"); Elapse 500; Elapse 120]
                      mounted).
  assert (Hbody : JSON.parse sample_body =
                  Some (JObject [("embedding_time", JNumber 30000000);
                                 ("search_time", JNumber 60000000);
                                 ("results",
                                  JArray [JObject [("text", JString "plain prose")]])]))
    by (vm_compute; reflexivity).
  pose proof (success_timing 500 200 sample_body _
                (JNumber 30000000) (JNumber 60000000) 30000000 60000000
                (setAwaiting [] before) eq_refl Hbody eq_refl eq_refl
                eq_refl eq_refl) as H.
  vm_compute in H. vm_compute. exact H.
Defined.

(** ** The parameters of a request *)

(** C8: the request sent for a non-empty search term has, in its query
    string, exactly [search] (the percent-encoded term), [optimized]
    ([true] or [false]), [limit], [threshold], [speed] and [dataset], in
    this order; the earlier variants of the component send the first four
    only.  A term that cannot be encoded sends no request. *)
Theorem request_parameters (q : QueryParams) (st : State) :
  searchTerm q <> EmptyString ->
  Chars.all_chars Query.plain (dataset q) = true ->
  (forall encoded,
      URI.encodeURIComponent (searchTerm q) = Some encoded ->
      (exists r,
          sent (search_begin q st) = (sent st ++ [r])%list
          /\ Query.params_of (req_url r) =
               [("search", encoded);
                ("optimized", bool_text (fast q));
                ("limit", JSNumber.toString (limit q));
                ("threshold", JSNumber.toString (threshold q));
                ("speed", JSNumber.toString (speed q));
                ("dataset", dataset q)])
      /\ URI.decode encoded = Some (searchTerm q)
      /\ url_basic endpoint q = Some (url_basic_with endpoint encoded q)
      /\ Query.params_of (url_basic_with endpoint encoded q) =
           [("search", encoded);
            ("optimized", bool_text (fast q));
            ("limit", JSNumber.toString (limit q));
            ("threshold", JSNumber.toString (threshold q))])
  /\ (URI.encodeURIComponent (searchTerm q) = None ->
      sent (search_begin q st) = sent st).
Proof.
  intros Hterm Hd. split.
  - intros encoded Henc.
    pose proof (UrlFacts.encodeURIComponent_plain _ _ Henc) as Hplain.
    split; [|split; [|split]].
    + eexists. split.
      * exact (proj1 (search_begin_sends q encoded st Hterm Henc)).
      * exact (UrlFacts.url_with_params encoded q Hplain Hd).
    + exact (UrlFacts.decode_encodeURIComponent _ _ Henc).
    + unfold url_basic. now rewrite Henc.
    + apply UrlFacts.url_basic_with_params; [now left | exact Hplain].
  - intros Henc. exact (proj1 (search_begin_throws q st Hterm Henc)).
Qed.

(** The term [fish & chips] with the fast mode on. *)
Lemma request_parameters_example :
  let q := mkParams "fish & chips" 0.55 true 5 2 "places" in
  exists r,
    sent (search_begin q mounted) = [r]
    /\ Query.params_of (req_url r) =
         [("search", "fish%20%26%20chips"); ("optimized", "true");
          ("limit", "5"); ("threshold", "0.55"); ("speed", "2");
          ("dataset", "places")].
Proof.
  pose proof (proj1 (proj1 (request_parameters
                              (mkParams "fish & chips" 0.55 true 5 2 "places")
                              mounted ltac:(discriminate) eq_refl)
                           "fish%20%26%20chips" eq_refl)) as H.
  vm_compute in H. vm_compute. exact H.
Defined.

End Controller.

(* ================================================================== *)
(** * What a settled request does *)

Module Settling.
Import SearchApp.

(** Case analysis on the innermost [match] of the goal. *)
Ltac break_goal :=
  match goal with
  | |- context [match ?x with _ => _ end] =>
      lazymatch x with
      | context [match _ with _ => _ end] => fail
      | _ => destruct x eqn:?
      end
  end.

Ltac unfold_resume :=
  cbv [search_resume try_catch_finally bind throw ret orThrow exec read caught].

(** What a settled request leaves alone. *)
Lemma search_resume_frame (startTime : float) (o : FetchOutcome) (st : State) :
  let st' := search_resume startTime o st in
  loading st' = false
  /\ params st' = params st /\ timer st' = timer st /\ now st' = now st
  /\ sent st' = sent st /\ awaiting st' = awaiting st.
Proof.
  unfold_resume. repeat break_goal; repeat split; reflexivity.
Qed.

Lemma search_resume_success (startTime : float) (status : Z) (body : string)
      (data embeddingsTime searchTime rawResults : JSValue)
      (embeddingsNs searchNs : float)
      (processed : list JSValue) (st : State) :
  ok status = true ->
  JSON.parse body = Some data ->
  JS.get data "embedding_time" = Some embeddingsTime ->
  JS.get data "search_time" = Some searchTime ->
  Numeric.ToNumber embeddingsTime = Some embeddingsNs ->
  Numeric.ToNumber searchTime = Some searchNs ->
  JS.get data "results" = Some rawResults ->
  processedResults rawResults = Some processed ->
  let st' := search_resume startTime (Response status body) st in
  results st' = processed
  /\ timingMetrics st' =
       Some (mkTiming (embeddingsNs / 1000000) (searchNs / 1000000)
                      (performance_now st - startTime))
  /\ error st' = error st
  /\ console st' = console st.
Proof.
  intros Hok Hbody He Hs Hen Hsn Hr Hp. unfold_resume.
  rewrite Hok. cbn [negb]. rewrite Hbody, He, Hs, Hen, Hsn, Hr, Hp.
  repeat split; reflexivity.
Qed.

End Settling.

(* ================================================================== *)
(** * What holds in every state the component can reach *)

Module Invariants.
Import SearchApp Controller.

Record wf (st : State) : Prop := mkWf {
  wf_timer : forall d q, timer st = Some (d, q) -> q = params st;
  wf_error : loading st = true -> error st = None;
  wf_flight : loading st = true -> awaiting st <> [];
  wf_awaiting : Forall (fun i => (i < List.length (sent st))%nat) (awaiting st);
  wf_limit : JS.truthy (JNumber (limit (params st))) = true
}.

Lemma wf_mounted : wf mounted.
Proof.
  split; cbn; try discriminate; try reflexivity.
  - intros d q H. now injection H as _ <-.
  - constructor.
Qed.

Lemma apply_edit_limit (e : Edit) (q : QueryParams) :
  JS.truthy (JNumber (limit q)) = true ->
  JS.truthy (JNumber (limit (apply_edit e q))) = true.
Proof.
  intros H. destruct e; cbn [apply_edit limit]; try exact H.
  destruct (JS.truthy (JNumber parsed)) eqn:E; [exact E | reflexivity].
Qed.

Lemma wf_on_edit (e : Edit) (st : State) : wf st -> wf (on_edit e st).
Proof.
  intros [Ht He Hf Ha Hl]. unfold on_edit.
  destruct (same_params (params st) (apply_edit e (params st))); [now split|].
  split; cbn; try assumption.
  - intros d q H. now injection H as _ <-.
  - now apply apply_edit_limit.
Qed.

Lemma Forall_lt_app (l : list nat) (n : nat) :
  Forall (fun i => (i < n)%nat) l ->
  Forall (fun i => (i < S n)%nat) (l ++ [n]).
Proof.
  intros H. apply Forall_app. split.
  - eapply Forall_impl; [|exact H]. intros i Hi. simpl in Hi. lia.
  - repeat constructor.
Qed.

Lemma wf_search_begin (st : State) (t : Z) :
  wf st -> wf (search_begin (params st) (setNow t (setTimer None st))).
Proof.
  intros [Ht He Hf Ha Hl]. unfold search_begin.
  destruct (negb (JS.truthy (JString (searchTerm (params st))))).
  - split; cbn; try assumption. discriminate.
  - destruct (url (params st)).
    + split; cbn; try assumption; try reflexivity; try discriminate.
      * intros _. now destruct (awaiting st).
      * rewrite length_app. cbn. rewrite Nat.add_1_r. now apply Forall_lt_app.
    + split; cbn; try assumption; discriminate.
Qed.

Lemma wf_setNow (t : Z) (st : State) : wf st -> wf (setNow t st).
Proof. intros [Ht He Hf Ha Hl]. now split. Qed.

Lemma wf_elapse (dt : Z) (st : State) : wf st -> wf (elapse dt st).
Proof.
  intros H. unfold elapse.
  destruct (timer st) as [[d q]|] eqn:E; [|now apply wf_setNow].
  destruct (d <=? now st + dt); [|now apply wf_setNow].
  apply wf_setNow. rewrite (wf_timer st H d q E). now apply wf_search_begin.
Qed.

Lemma remove_index_incl (i : nat) (l : list nat) (P : nat -> Prop) :
  Forall P l -> Forall P (remove_index i l).
Proof.
  induction 1 as [|j l Hj Hl IH]; cbn; [constructor|].
  destruct (Nat.eqb i j); [assumption | now constructor].
Qed.

Lemma wf_settle (i : nat) (o : FetchOutcome) (st : State) :
  wf st -> wf (settle i o st).
Proof.
  intros H. unfold settle.
  destruct (existsb (Nat.eqb i) (awaiting st)); [|exact H].
  destruct (nth_error (sent st) i) as [r|]; [|exact H].
  destruct (Settling.search_resume_frame (req_start r) o
              (setAwaiting (remove_index i (awaiting st)) st))
    as (Hl & Hp & Ht & _ & Hs & Ha).
  destruct H as [Wt We Wf Wa Wl].
  split.
  - rewrite Ht, Hp. exact Wt.
  - rewrite Hl. discriminate.
  - rewrite Hl. discriminate.
  - rewrite Hs, Ha. cbn. now apply remove_index_incl.
  - rewrite Hp. exact Wl.
Qed.

Lemma wf_step (ev : Event) (st : State) : wf st -> wf (step ev st).
Proof.
  destruct ev; cbn [step];
    [apply wf_on_edit | apply wf_elapse | apply wf_settle].
Qed.

Lemma wf_run (evs : list Event) : forall st, wf st -> wf (run evs st).
Proof.
  induction evs as [|ev evs IH]; intros st H; [exact H|].
  rewrite run_cons. apply IH. now apply wf_step.
Qed.

Lemma wf_reachable (evs : list Event) : wf (run evs mounted).
Proof. apply wf_run, wf_mounted. Qed.

End Invariants.

Module Reachable.
Import SearchApp Controller Invariants.

(** ** How one event changes the request log *)

Lemma search_begin_params (q : QueryParams) (st : State) :
  params (search_begin q st) = params st.
Proof.
  unfold search_begin.
  destruct (negb (JS.truthy (JString (searchTerm q)))); [reflexivity|].
  now destruct (url q).
Qed.

Lemma elapse_params (dt : Z) (st : State) : params (elapse dt st) = params st.
Proof.
  unfold elapse. destruct (timer st) as [[d q]|]; [|reflexivity].
  destruct (d <=? now st + dt); [|reflexivity].
  cbn [params setNow]. now rewrite search_begin_params.
Qed.

Lemma settle_frame (i : nat) (o : FetchOutcome) (st : State) :
  params (settle i o st) = params st /\ timer (settle i o st) = timer st
  /\ now (settle i o st) = now st /\ sent (settle i o st) = sent st.
Proof.
  unfold settle.
  destruct (existsb (Nat.eqb i) (awaiting st)); [|now repeat split].
  destruct (nth_error (sent st) i) as [r|]; [|now repeat split].
  destruct (Settling.search_resume_frame (req_start r) o
              (setAwaiting (remove_index i (awaiting st)) st))
    as (_ & Hp & Ht & Hn & Hs & _).
  now repeat split.
Qed.

Lemma truthy_nonempty (s : string) :
  JS.truthy (JString s) = true -> s <> EmptyString.
Proof.
  cbn. intros H ->. discriminate H.
Qed.

(** An event leaves the log alone or, when the timer fires for a
    non-empty term that can be encoded, adds one request for the current
    parameters. *)
Lemma step_sent (ev : Event) (st : State) :
  wf st ->
  sent (step ev st) = sent st
  \/ (exists dt t encoded,
        ev = Elapse dt /\ searchTerm (params st) <> EmptyString
        /\ URI.encodeURIComponent (searchTerm (params st)) = Some encoded
        /\ sent (step ev st) =
             (sent st ++ [mkRequest (url_with encoded (params st)) t])%list).
Proof.
  intros H. destruct ev as [e|dt|i o]; cbn [step].
  - left. unfold on_edit.
    now destruct (same_params (params st) (apply_edit e (params st))).
  - unfold elapse. destruct (timer st) as [[d q]|] eqn:E; [|now left].
    destruct (d <=? now st + dt); [|now left].
    rewrite (wf_timer st H d q E). unfold search_begin, url.
    destruct (JS.truthy (JString (searchTerm (params st)))) eqn:T; cbn [negb];
      [|now left].
    destruct (URI.encodeURIComponent (searchTerm (params st))) as [encoded|] eqn:U;
      [|now left].
    right. exists dt. eexists. exists encoded. split; [reflexivity|].
    split; [now apply truthy_nonempty|]. split; reflexivity.
  - left. apply settle_frame.
Qed.

Lemma step_params_elapse_settle (ev : Event) (st : State) :
  (forall e, ev <> Edited e) -> params (step ev st) = params st.
Proof.
  destruct ev as [e|dt|i o]; intros H; cbn [step].
  - now destruct (H e).
  - apply elapse_params.
  - apply settle_frame.
Qed.

(** ** Counting *)

Definition is_edit (ev : Event) : bool :=
  match ev with
  | Edited _ => true
  | _ => false
  end.

Definition edits (evs : list Event) : nat := List.length (filter is_edit evs).

(** One when a call for a non-empty term is waiting for its deadline. *)
Definition pending (st : State) : nat :=
  match timer st with
  | Some (_, q) => if JS.truthy (JString (searchTerm q)) then 1 else 0
  | None => 0
  end.

Lemma pending_le_1 (st : State) : (pending st <= 1)%nat.
Proof.
  unfold pending. destruct (timer st) as [[d q]|]; [|lia].
  destruct (JS.truthy (JString (searchTerm q))); lia.
Qed.

Lemma step_budget (ev : Event) (st : State) :
  (List.length (sent (step ev st)) + pending (step ev st)
   <= List.length (sent st) + pending st + (if is_edit ev then 1 else 0))%nat.
Proof.
  destruct ev as [e|dt|i o]; cbn [step is_edit].
  - unfold on_edit.
    destruct (same_params (params st) (apply_edit e (params st))); [lia|].
    pose proof (pending_le_1 (effect (setParams (apply_edit e (params st)) st))).
    change (sent (effect (setParams (apply_edit e (params st)) st)))
      with (sent st).
    lia.
  - unfold elapse. destruct (timer st) as [[d q]|] eqn:E.
    + destruct (d <=? now st + dt).
      * unfold search_begin, pending at 2. rewrite E.
        destruct (JS.truthy (JString (searchTerm q))); cbn [negb].
        -- destruct (url q); unfold pending; cbn; rewrite ?length_app; cbn; lia.
        -- unfold pending. cbn. lia.
      * unfold pending. cbn. lia.
    + unfold pending. cbn. lia.
  - destruct (settle_frame i o st) as (_ & Ht & _ & Hs).
    unfold pending. rewrite Ht, Hs. lia.
Qed.

Lemma run_budget (evs : list Event) :
  forall st,
    (List.length (sent (run evs st)) + pending (run evs st)
     <= List.length (sent st) + pending st + edits evs)%nat.
Proof.
  induction evs as [|ev evs IH]; intros st; [cbn; lia|].
  rewrite run_cons. specialize (IH (step ev st)).
  pose proof (step_budget ev st) as H.
  unfold edits in *. cbn [filter].
  destruct (is_edit ev); cbn [List.length]; lia.
Qed.

End Reachable.

(* ================================================================== *)
(** * Properties of every run of the component *)

Module Runs.
Import SearchApp Controller Invariants Reachable.

(** ** The view (the conditions of the JSX blocks) *)

Definition shows_spinner (st : State) : bool := loading st.

Definition shows_error (st : State) : bool :=
  match error st with
  | Some message => JS.truthy (JString message)
  | None => false
  end.

Definition shows_timing (st : State) : bool :=
  match timingMetrics st with
  | Some _ => negb (loading st)
  | None => false
  end.

Definition shows_empty_notice (st : State) : bool :=
  negb (loading st) && negb (shows_error st)
  && (List.length (results st) =? 0)%nat
  && JS.truthy (JString (searchTerm (params st))).

Definition shows_results (st : State) : bool :=
  negb (loading st) && negb (shows_error st)
  && (0 <? List.length (results st))%nat.

Definition blocks_shown (st : State) : nat :=
  (if shows_spinner st then 1 else 0) + (if shows_error st then 1 else 0)
  + (if shows_empty_notice st then 1 else 0) + (if shows_results st then 1 else 0).

(** Every request ever sent is for a non-empty search term and for the
    parameter values that were current at some point of the run. *)
Theorem requests_carry_current_values (evs : list Event) (r : Request) :
  In r (sent (run evs mounted)) ->
  exists k,
    (k <= List.length evs)%nat
    /\ url (params (run (firstn k evs) mounted)) = Some (req_url r)
    /\ searchTerm (params (run (firstn k evs) mounted)) <> EmptyString.
Proof.
  revert r. induction evs as [|ev evs IH] using rev_ind; intros r Hr.
  - destruct Hr.
  - rewrite run_snoc in Hr.
    assert (Hold : In r (sent (run evs mounted)) ->
                   exists k, (k <= List.length (evs ++ [ev]))%nat
                     /\ url (params (run (firstn k (evs ++ [ev])) mounted))
                        = Some (req_url r)
                     /\ searchTerm (params (run (firstn k (evs ++ [ev])) mounted))
                        <> EmptyString).
    { intros Hin. destruct (IH r Hin) as (k & Hk & Hu & Ht).
      exists k. rewrite length_app. split; [lia|].
      rewrite firstn_app. replace (k - List.length evs)%nat with 0%nat by lia.
      cbn [firstn]. rewrite app_nil_r. now split. }
    destruct (step_sent ev (run evs mounted) (wf_reachable evs))
      as [Hs | (dt & t & encoded & _ & Hterm & Henc & Hs)]; rewrite Hs in Hr.
    + now apply Hold.
    + apply in_app_or in Hr as [Hin | [<- | []]]; [now apply Hold|].
      exists (List.length evs). rewrite length_app. split; [lia|].
      rewrite firstn_app, firstn_all, Nat.sub_diag. cbn [firstn].
      rewrite app_nil_r. split; [|exact Hterm].
      now apply url_encoded.
Qed.

Lemma requests_carry_current_values_example :
  exists k,
    (k <= 4)%nat
    /\ url (params (run (firstn k [Edited (SearchChange "te"); Elapse 200;
                                   Edited (SearchChange "tea"); Elapse 500])
                        mounted))
       = Some (endpoint ++ "?search=tea&optimized=false&limit=10&threshold=0.5"
                        ++ "&speed=0&dataset=reviews")
    /\ searchTerm (params (run (firstn k [Edited (SearchChange "te"); Elapse 200;
                                          Edited (SearchChange "tea"); Elapse 500])
                               mounted)) <> EmptyString.
Proof.
  refine (requests_carry_current_values
            [Edited (SearchChange "te"); Elapse 200;
             Edited (SearchChange "tea"); Elapse 500]
            (mkRequest (endpoint ++ "?search=tea&optimized=false&limit=10"
                                 ++ "&threshold=0.5&speed=0&dataset=reviews") 700) _).
  vm_compute. left. reflexivity.
Defined.

(** The component never sends more requests than edits were made. *)
Theorem requests_bounded_by_edits (evs : list Event) :
  (List.length (sent (run evs mounted)) <= edits evs)%nat.
Proof.
  pose proof (run_budget evs mounted) as H.
  change (List.length (sent mounted)) with 0%nat in H.
  change (pending mounted) with 0%nat in H. lia.
Qed.

(** Without an edit nothing is ever sent and the state stays idle,
    however long the component stays mounted. *)
Theorem nothing_without_edits (evs : list Event) :
  edits evs = 0%nat ->
  sent (run evs mounted) = [] /\ is_idle (run evs mounted) = true.
Proof.
  intros H.
  assert (K : forall l st,
             edits l = 0%nat ->
             sent st = [] /\ awaiting st = [] /\ is_idle st = true
             /\ (forall d q, timer st = Some (d, q) -> searchTerm q = EmptyString) ->
             sent (run l st) = [] /\ is_idle (run l st) = true).
  { induction l as [|ev l IH]; intros st Hl (Hs & Ha & Hi & Ht); [now split|].
    rewrite run_cons. unfold edits in Hl. cbn [filter] in Hl.
    destruct ev as [e|dt|i o]; cbn [is_edit] in Hl; [discriminate Hl| |];
      apply IH; try exact Hl; cbn [step].
    - unfold elapse. destruct (timer st) as [[d q]|] eqn:E.
      + destruct (d <=? now st + dt).
        * rewrite (search_begin_empty q _ (Ht d q eq_refl)).
          unfold is_idle in *. cbn.
          apply andb_true_iff in Hi as [Hi _].
          apply andb_true_iff in Hi as [Hi _]. rewrite Hi.
          repeat split; try assumption. discriminate.
        * cbn. rewrite E. now repeat split.
      + cbn. rewrite E. now repeat split.
    - unfold settle. rewrite Ha. cbn. now repeat split. }
  apply K; [exact H|]. repeat split.
  intros d q E. now injection E as _ <-.
Qed.

Lemma nothing_without_edits_example :
  sent (run [Elapse 100; Elapse 450; Settle 0 NetworkFailure; Elapse 5000] mounted) = []
  /\ is_idle (run [Elapse 100; Elapse 450; Settle 0 NetworkFailure; Elapse 5000]
                  mounted) = true.
Proof.
  exact (nothing_without_edits
           [Elapse 100; Elapse 450; Settle 0 NetworkFailure; Elapse 5000] eq_refl).
Defined.

(** In every state the component reaches once an edit, a timer or a
    response has been handled, at most one of the spinner, the error box,
    the "No results found" notice and the results list is shown. *)
Theorem one_block_at_a_time (evs : list Event) :
  (blocks_shown (run evs mounted) <= 1)%nat.
Proof.
  pose proof (wf_error _ (wf_reachable evs)) as He.
  unfold blocks_shown, shows_spinner, shows_empty_notice, shows_results, shows_error.
  destruct (loading (run evs mounted)).
  - rewrite (He eq_refl). cbn. lia.
  - cbn [negb andb].
    destruct (error (run evs mounted)) as [m|];
      [destruct (JS.truthy (JString m))|]; cbn [negb andb];
      destruct (List.length (results (run evs mounted))); cbn;
        try destruct (negb _); cbn; lia.
Qed.

(** In every such state, while the spinner is shown a request is in
    flight. *)
Theorem spinner_means_in_flight (evs : list Event) :
  shows_spinner (run evs mounted) = true ->
  exists i r,
    In i (awaiting (run evs mounted))
    /\ nth_error (sent (run evs mounted)) i = Some r.
Proof.
  intros H. pose proof (wf_reachable evs) as W.
  pose proof (wf_flight _ W H) as Hne. pose proof (wf_awaiting _ W) as Hall.
  destruct (awaiting (run evs mounted)) as [|i l]; [contradiction|].
  inversion Hall as [|? ? Hi _]; subst.
  destruct (nth_error (sent (run evs mounted)) i) as [r|] eqn:E.
  - exists i, r. split; [now left | exact E].
  - apply nth_error_None in E. lia.
Qed.

Lemma spinner_means_in_flight_example :
  exists i r,
    In i (awaiting (run [Edited (SearchChange "tea"); Elapse 500] mounted))
    /\ nth_error (sent (run [Edited (SearchChange "tea"); Elapse 500] mounted)) i
       = Some r.
Proof.
  exact (spinner_means_in_flight [Edited (SearchChange "tea"); Elapse 500] eq_refl).
Defined.

(** The limit is never 0 or NaN: a limit box that is emptied or set to 0
    falls back to 1. *)
Theorem limit_never_falsy (evs : list Event) :
  JS.truthy (JNumber (limit (params (run evs mounted)))) = true
  /\ forall parsed,
       JS.truthy (JNumber parsed) = false ->
       limit (params (run (evs ++ [Edited (LimitChange parsed)]) mounted)) = 1%float.
Proof.
  split; [apply (wf_limit _ (wf_reachable evs))|].
  intros parsed H. rewrite run_snoc. cbn [step]. unfold on_edit.
  destruct (same_params _ _) eqn:E.
  - unfold same_params in E. cbn [apply_edit limit] in E. rewrite H in E.
    repeat (apply andb_true_iff in E as [E ?]).
    now apply FloatAxioms.Leibniz.eqb_spec.
  - unfold effect, debouncedSearch.
    cbn [params setTimer setParams apply_edit limit]. now rewrite H.
Qed.

End Runs.

(* ================================================================== *)
(** * Properties of settling and normalization *)

Module Responses.
Import SearchApp Controller Invariants Reachable Settling.

Definition is_settle (ev : Event) : Prop :=
  match ev with
  | Settle _ _ => True
  | _ => False
  end.

(** Responses, in any number and order and whatever their outcome, never
    make the component send or schedule anything, nor change a
    parameter. *)
Theorem responses_send_nothing (evs : list Event) (st : State) :
  Forall is_settle evs ->
  sent (run evs st) = sent st
  /\ timer (run evs st) = timer st
  /\ params (run evs st) = params st.
Proof.
  revert st. induction evs as [|ev evs IH]; intros st H; [now repeat split|].
  inversion H as [|? ? Hev Hevs]; subst. rewrite run_cons.
  destruct ev as [e|dt|i o]; try destruct Hev. cbn [step].
  destruct (IH (settle i o st) Hevs) as (Hs & Ht & Hp).
  destruct (settle_frame i o st) as (Hp' & Ht' & _ & Hs').
  rewrite Hs, Ht, Hp. now repeat split.
Qed.

Lemma responses_send_nothing_example :
  let st := run [Edited (SearchChange "tea"); Elapse 500;
                 Edited (SearchChange "teas")] mounted in
  sent (run [Settle 0 (Response 503 EmptyString); Settle 0 NetworkFailure] st) = sent st
  /\ timer (run [Settle 0 (Response 503 EmptyString); Settle 0 NetworkFailure] st)
     = timer st
  /\ params (run [Settle 0 (Response 503 EmptyString); Settle 0 NetworkFailure] st)
     = params st.
Proof.
  apply responses_send_nothing. repeat constructor.
Defined.

(** A response whose body is JSON but whose [results] cannot be mapped (not
    an array, or holding [null]) ends in the error state with the timing
    of that response already stored: the view shows the error box and the
    timing bar together. *)
Theorem unusable_results_keep_timing
        (startTime : float) (status : Z) (body : string)
        (data embeddingsTime searchTime rawResults : JSValue)
        (embeddingsNs searchNs : float) (st : State) :
  ok status = true ->
  JSON.parse body = Some data ->
  JS.get data "embedding_time" = Some embeddingsTime ->
  JS.get data "search_time" = Some searchTime ->
  Numeric.ToNumber embeddingsTime = Some embeddingsNs ->
  Numeric.ToNumber searchTime = Some searchNs ->
  JS.get data "results" = Some rawResults ->
  processedResults rawResults = None ->
  let st' := search_resume startTime (Response status body) st in
  error st' = Some failure_message
  /\ timingMetrics st' =
       Some (mkTiming (embeddingsNs / 1000000) (searchNs / 1000000)
                      (performance_now st - startTime))
  /\ results st' = results st
  /\ loading st' = false
  /\ console st' = (console st ++ [(log_label, TypeError)])%list
  /\ Runs.shows_error st' = true /\ Runs.shows_timing st' = true.
Proof.
  intros Hok Hbody He Hs Hen Hsn Hr Hp. unfold_resume.
  rewrite Hok. cbn [negb]. rewrite Hbody, He, Hs, Hen, Hsn, Hr, Hp.
  repeat split; reflexivity.
Qed.

(** The body [{"embedding_time":1000000,"search_time":2000000}], which has
    no [results]. *)
Definition body_without_results : string :=
  "{" ++ Chars.quoted "embedding_time" ++ ":1000000,"
      ++ Chars.quoted "search_time" ++ ":2000000}".

Lemma unusable_results_keep_timing_example :
  let st' := search_resume 500 (Response 200 body_without_results)
               (run [Edited (SearchChange "tea"); Elapse 500; Elapse 40] mounted) in
  error st' = Some failure_message
  /\ timingMetrics st' = Some (mkTiming 1 2 40)
  /\ results st' = []
  /\ loading st' = false
  /\ console st' = [(log_label, TypeError)]
  /\ Runs.shows_error st' = true /\ Runs.shows_timing st' = true.
Proof.
  pose proof (unusable_results_keep_timing 500 200 body_without_results
                (JObject [("embedding_time", JNumber 1000000);
                          ("search_time", JNumber 2000000)])
                (JNumber 1000000) (JNumber 2000000) JUndefined 1000000 2000000
                (run [Edited (SearchChange "tea"); Elapse 500; Elapse 40] mounted)
                eq_refl ltac:(vm_compute; reflexivity) eq_refl eq_refl
                eq_refl eq_refl eq_refl eq_refl)
    as H.
  vm_compute in H. vm_compute. exact H.
Defined.

(** Every settled request ends in one of two ways: the results are
    replaced by the normalized items of the response, the error message
    and the console untouched; or the generic message is set, one entry
    is logged and the results are untouched. *)
Theorem settled_request_dichotomy (startTime : float) (o : FetchOutcome) (st : State) :
  let st' := search_resume startTime o st in
  (error st' = error st /\ console st' = console st
   /\ timingMetrics st' <> None
   /\ exists status body data rawResults,
       o = Response status body /\ ok status = true
       /\ JSON.parse body = Some data
       /\ JS.get data "results" = Some rawResults
       /\ processedResults rawResults = Some (results st'))
  \/ (error st' = Some failure_message /\ results st' = results st
      /\ exists err, console st' = (console st ++ [(log_label, err)])%list).
Proof.
  unfold_resume.
  destruct o as [|status body]; [right; repeat split; eexists; reflexivity|].
  destruct (ok status) eqn:Hok; cbn [negb];
    [|right; repeat split; eexists; reflexivity].
  destruct (JSON.parse body) as [data|] eqn:Hbody;
    [|right; repeat split; eexists; reflexivity].
  destruct (JS.get data "embedding_time") as [e|];
    [|right; repeat split; eexists; reflexivity].
  destruct (JS.get data "search_time") as [s|];
    [|right; repeat split; eexists; reflexivity].
  destruct (Numeric.ToNumber e);
    [|right; repeat split; eexists; reflexivity].
  destruct (Numeric.ToNumber s);
    [|right; repeat split; eexists; reflexivity].
  destruct (JS.get data "results") as [raw|] eqn:Hraw;
    [|right; repeat split; eexists; reflexivity].
  destruct (processedResults raw) as [out|] eqn:Hout;
    [|right; repeat split; eexists; reflexivity].
  left. repeat split; try reflexivity; try discriminate.
  exists status, body, data, raw. now repeat split.
Qed.

(** A 2xx body without [embedding_time] and [search_time] is no error: the
    results are shown, with a timing of NaN for both. *)
Theorem missing_times_are_NaN
        (startTime : float) (status : Z) (body : string)
        (data rawResults : JSValue) (processed : list JSValue) (st : State) :
  ok status = true ->
  JSON.parse body = Some data ->
  JS.get data "embedding_time" = Some JUndefined ->
  JS.get data "search_time" = Some JUndefined ->
  JS.get data "results" = Some rawResults ->
  processedResults rawResults = Some processed ->
  let st' := search_resume startTime (Response status body) st in
  results st' = processed
  /\ error st' = error st
  /\ timingMetrics st' = Some (mkTiming nan nan (performance_now st - startTime)).
Proof.
  intros Hok Hbody He Hs Hr Hp.
  destruct (search_resume_success startTime status body data JUndefined JUndefined
              rawResults nan nan processed st Hok Hbody He Hs eq_refl eq_refl Hr Hp)
    as (H1 & H2 & H3 & _).
  cbv zeta. now rewrite H1, H2, H3.
Qed.

(** The body [{"results":[]}]. *)
Definition body_without_times : string :=
  "{" ++ Chars.quoted "results" ++ ":[]}".

Lemma missing_times_are_NaN_example :
  let st' := search_resume 500 (Response 200 body_without_times)
               (run [Edited (SearchChange "tea"); Elapse 500; Elapse 40] mounted) in
  results st' = []
  /\ error st' = None
  /\ timingMetrics st' = Some (mkTiming nan nan 40).
Proof.
  pose proof (missing_times_are_NaN 500 200 body_without_times
                (JObject [("results", JArray [])]) (JArray []) []
                (run [Edited (SearchChange "tea"); Elapse 500; Elapse 40] mounted)
                eq_refl ltac:(vm_compute; reflexivity) eq_refl eq_refl eq_refl eq_refl)
    as H.
  vm_compute in H. vm_compute. exact H.
Defined.

(** [rawResults.map] throws exactly when [rawResults] is not an array or
    one of its elements is [null] (or [undefined]). *)
Theorem processedResults_fails_iff (rawResults : JSValue) :
  processedResults rawResults = None <->
  (forall items, rawResults <> JArray items)
  \/ (exists items,
        rawResults = JArray items
        /\ Exists (fun result => result = JNull \/ result = JUndefined) items).
Proof.
  assert (M : forall items,
             mapM processResult items = None <->
             Exists (fun result => result = JNull \/ result = JUndefined) items).
  { induction items as [|x items IH]; cbn [mapM].
    - split; [discriminate | intros H; inversion H].
    - destruct (processResult x) as [y|] eqn:E.
      + destruct (mapM processResult items) as [ys|].
        * split; [discriminate|]. intros H.
          apply Exists_cons in H as [Hx | Hl].
          -- destruct Hx as [-> | ->]; discriminate E.
          -- now apply IH in Hl.
        * split; [|reflexivity]. intros _. apply Exists_cons_tl. now apply IH.
      + split; [|reflexivity]. intros _. apply Exists_cons_hd.
        destruct x; try (now left); try (now right); exfalso;
          match type of E with
          | processResult ?v = None =>
              destruct (Normalization.processResult_readable v) as [out Hout];
              [unfold Normalization.readable; cbn; discriminate
              |rewrite Hout in E; discriminate E]
          end. }
  destruct rawResults; cbn [processedResults];
    try (split; [intros _; left; intros items; discriminate | reflexivity]).
  rewrite M. split.
  - intros H. right. now exists items.
  - intros [H | (l & Hl & H)]; [now destruct (H items)|].
    now injection Hl as <-.
Qed.

(** What a fetch outcome delivers when everything in it is usable. *)
Inductive Delivers : FetchOutcome -> list JSValue -> Prop :=
| delivers (status : Z) (body : string)
           (data embeddingsTime searchTime rawResults : JSValue)
           (embeddingsNs searchNs : float)
           (processed : list JSValue) :
    ok status = true ->
    JSON.parse body = Some data ->
    JS.get data "embedding_time" = Some embeddingsTime ->
    JS.get data "search_time" = Some searchTime ->
    Numeric.ToNumber embeddingsTime = Some embeddingsNs ->
    Numeric.ToNumber searchTime = Some searchNs ->
    JS.get data "results" = Some rawResults ->
    processedResults rawResults = Some processed ->
    Delivers (Response status body) processed.

Lemma settle_awaited (i : nat) (r : Request) (o : FetchOutcome) (st : State) :
  In i (awaiting st) -> nth_error (sent st) i = Some r ->
  settle i o st =
    search_resume (req_start r) o (setAwaiting (remove_index i (awaiting st)) st).
Proof.
  intros Hi Hr. unfold settle. rewrite Hr.
  assert (E : existsb (Nat.eqb i) (awaiting st) = true)
    by (apply existsb_exists; exists i; split; [exact Hi | apply Nat.eqb_refl]).
  now rewrite E.
Qed.

Lemma settle_delivers (i : nat) (r : Request) (o : FetchOutcome)
      (out : list JSValue) (st : State) :
  In i (awaiting st) -> nth_error (sent st) i = Some r ->
  Delivers o out ->
  results (settle i o st) = out /\ loading (settle i o st) = false
  /\ error (settle i o st) = error st.
Proof.
  intros Hi Hr Hd. rewrite (settle_awaited i r o st Hi Hr).
  destruct Hd as [status body data e s raw en sn processed
                    Hok Hbody He Hse Hen Hsn Hraw Hp].
  destruct (search_resume_success (req_start r) status body data e s raw en sn
              processed (setAwaiting (remove_index i (awaiting st)) st)
              Hok Hbody He Hse Hen Hsn Hraw Hp)
    as (Hres & _ & Herr & _).
  split; [exact Hres|]. split; [|exact Herr].
  apply search_resume_frame.
Qed.

Lemma awaiting_after_other (i j : nat) (l : list nat) :
  i <> j -> In i l -> In i (remove_index j l).
Proof.
  intros Hij. induction l as [|k l IH]; cbn; [contradiction|].
  intros [-> | Hin].
  - destruct (Nat.eqb_spec j i) as [->|_]; [contradiction | now left].
  - destruct (Nat.eqb j k); [exact Hin | right; now apply IH].
Qed.

Lemma settle_other (i j : nat) (rj : Request) (oj : FetchOutcome) (st : State) :
  i <> j -> In i (awaiting st) -> In j (awaiting st) ->
  nth_error (sent st) j = Some rj ->
  In i (awaiting (settle j oj st)) /\ sent (settle j oj st) = sent st
  /\ loading (settle j oj st) = false.
Proof.
  intros Hij Hi Hj Hrj. rewrite (settle_awaited j rj oj st Hj Hrj).
  destruct (search_resume_frame (req_start rj) oj
              (setAwaiting (remove_index j (awaiting st)) st))
    as (Hl & _ & _ & _ & Hs & Ha).
  rewrite Ha, Hs. cbn [awaiting sent setAwaiting].
  split; [now apply awaiting_after_other|]. now split.
Qed.


(** When two requests are in flight, the first response turns the spinner
    off although the other request is still pending. *)
Theorem spinner_off_while_pending (i j : nat) (ri rj : Request)
        (oj : FetchOutcome) (st : State) :
  i <> j ->
  In i (awaiting st) -> In j (awaiting st) ->
  nth_error (sent st) i = Some ri ->
  nth_error (sent st) j = Some rj ->
  Runs.shows_spinner (step (Settle j oj) st) = false
  /\ In i (awaiting (step (Settle j oj) st))
  /\ nth_error (sent (step (Settle j oj) st)) i = Some ri.
Proof.
  intros Hij Hi Hj Hri Hrj. cbn [step]. unfold Runs.shows_spinner.
  destruct (settle_other i j rj oj st Hij Hi Hj Hrj) as (Hi' & Hs & Hl).
  rewrite Hs. now repeat split.
Qed.

(** A response is applied whatever the parameters are by then: its results
    are shown also when the search term has been changed or cleared since
    the request was sent. *)
Theorem late_response_is_shown (i : nat) (r : Request) (o : FetchOutcome)
        (out : list JSValue) (st : State) :
  In i (awaiting st) -> nth_error (sent st) i = Some r ->
  Delivers o out -> out <> [] -> error st = None ->
  results (step (Settle i o) st) = out
  /\ Runs.shows_results (step (Settle i o) st) = true.
Proof.
  intros Hi Hr Hd Hne Herr. cbn [step].
  destruct (settle_delivers i r o out st Hi Hr Hd) as (Hres & Hl & He).
  split; [exact Hres|].
  unfold Runs.shows_results, Runs.shows_error. rewrite Hl, He, Herr, Hres.
  destruct out; [contradiction | reflexivity].
Qed.

End Responses.

(* ================================================================== *)
(** * Rendering a result *)

Module Rendering.
Import SearchApp.

(** [result.score !== undefined && (... result.score.toFixed(3) ...)] for a
    record of the results list: [None] is the [TypeError] of calling
    [toFixed] on a value that is no number, otherwise whether the score
    is shown. *)
Definition shows_score (result : JSValue) : option bool :=
  match JS.get result "score" with
  | None => None
  | Some JUndefined => Some false
  | Some (JNumber _) => Some true
  | Some _ => None
  end.

(** The score of a normalized record can be rendered unless the text of
    the item parsed to a value whose [score] is neither absent nor a
    number (such as [null] or a string): such a record passes
    normalization and makes rendering the list throw. *)
Theorem score_of_processed_result (result out : JSValue) :
  processResult result = Some out ->
  shows_score out = None <->
  exists text jsonData score,
    JS.get result "text" = Some text
    /\ JSON_parse text = Some jsonData
    /\ JS.get jsonData "score" = Some score
    /\ score <> JUndefined /\ forall x, score <> JNumber x.
Proof.
  unfold processResult.
  destruct (JS.get result "text") as [text|]; [|discriminate].
  destruct (JSON_parse text) as [jsonData|] eqn:P.
  - destruct jsonData as [| |b|x|s|items|members]; cbn [JS.get JS.field];
      intros H; injection H as <-; cbn;
      try (split; [discriminate|];
           intros (t & j & c & Ht & Hj & Hc & Hu & Hn);
           injection Ht as <-; rewrite P in Hj; injection Hj as <-;
           cbn in Hc; try discriminate Hc;
           injection Hc as <-; now destruct Hu).
    destruct (JS.lookup "score" members) as [| |b|x|s|items|ms] eqn:E;
      try (split; [discriminate|];
           intros (t & j & c & Ht & Hj & Hc & Hu & Hn);
           injection Ht as <-; rewrite P in Hj; injection Hj as <-;
           cbn in Hc; rewrite E in Hc;
           injection Hc as <-; first [now destruct Hu | now destruct (Hn x)]);
      (split; [intros _|reflexivity];
       exists text, (JObject members), (JS.lookup "score" members);
       repeat split; try reflexivity; try exact P; rewrite E; discriminate).
  - intros H. injection H as <-. cbn. split; [discriminate|].
    intros (t & j & c & Ht & Hj & _). injection Ht as <-.
    rewrite P in Hj. discriminate Hj.
Qed.

(** The item [{text: '{"name":"A","score":null}'}]. *)
Definition null_score_item : JSValue :=
  JObject [("text", JString ("{" ++ Chars.quoted "name" ++ ":" ++ Chars.quoted "A" ++ ","
                                 ++ Chars.quoted "score" ++ ":null}"))].

Lemma score_of_processed_result_example :
  processResult null_score_item =
    Some (JObject [("name", JString "A"); ("location", JUndefined);
                   ("summary", JUndefined); ("text", JUndefined); ("score", JNull)])
  /\ shows_score (JObject [("name", JString "A"); ("location", JUndefined);
                           ("summary", JUndefined); ("text", JUndefined);
                           ("score", JNull)]) = None.
Proof.
  assert (P : processResult null_score_item =
              Some (JObject [("name", JString "A"); ("location", JUndefined);
                             ("summary", JUndefined); ("text", JUndefined);
                             ("score", JNull)]))
    by (vm_compute; reflexivity).
  split; [exact P|].
  apply (proj2 (score_of_processed_result null_score_item _ P)).
  exists (JString ("{" ++ Chars.quoted "name" ++ ":" ++ Chars.quoted "A" ++ ","
                       ++ Chars.quoted "score" ++ ":null}")),
         (JObject [("name", JString "A"); ("score", JNull)]), JNull.
  repeat split; try (vm_compute; reflexivity); discriminate.
Defined.

(** A record of the fallback branch has no score: rendering it never
    throws and shows no score. *)
Theorem fallback_record_has_no_score (result out : JSValue) :
  processResult result = Some out ->
  (forall text, JS.get result "text" = Some text -> JSON_parse text = None) ->
  shows_score out = Some false.
Proof.
  unfold processResult. intros H Hf.
  destruct (JS.get result "text") as [text|]; [|discriminate].
  rewrite (Hf text eq_refl) in H. now injection H as <-.
Qed.

Lemma fallback_record_has_no_score_example :
  shows_score (JObject [("text", JString "plain prose")]) = Some false.
Proof.
  apply (fallback_record_has_no_score (JObject [("text", JString "plain prose")])).
  - vm_compute. reflexivity.
  - intros text H. injection H as <-. vm_compute. reflexivity.
Defined.

End Rendering.

(* ================================================================== *)
(** * Properties of the controls *)

Module Controls.
Import SearchApp Controller Invariants Reachable.

(** The body [{"embedding_time":1,"search_time":2,"results":[{"text":"tea leaves"}]}]. *)
Definition tea_body : string :=
  "{" ++ Chars.quoted "embedding_time" ++ ":1,"
      ++ Chars.quoted "search_time" ++ ":2,"
      ++ Chars.quoted "results" ++ ":[{" ++ Chars.quoted "text" ++ ":"
      ++ Chars.quoted "tea leaves" ++ "}]}".

Lemma sample_body_delivers :
  Responses.Delivers (Response 200 sample_body)
    [JObject [("text", JString "plain prose")]].
Proof.
  apply (Responses.delivers 200 sample_body
           (JObject [("embedding_time", JNumber 30000000);
                     ("search_time", JNumber 60000000);
                     ("results", JArray [JObject [("text", JString "plain prose")]])])
           (JNumber 30000000) (JNumber 60000000)
           (JArray [JObject [("text", JString "plain prose")]])
           30000000 60000000);
    vm_compute; reflexivity.
Qed.

(** Two searches in flight: [coffee] (request 0), then [tea] (request 1). *)
Definition two_in_flight : State :=
  run [Edited (SearchChange "coffee"); Elapse 500;
       Edited (SearchChange "tea"); Elapse 500] mounted.

Lemma two_in_flight_requests :
  exists r0 r1,
    nth_error (sent two_in_flight) 0 = Some r0
    /\ nth_error (sent two_in_flight) 1 = Some r1
    /\ In 0%nat (awaiting two_in_flight) /\ In 1%nat (awaiting two_in_flight).
Proof.
  do 2 eexists. split; [vm_compute; reflexivity|].
  split; [vm_compute; reflexivity|].
  split; vm_compute; [now left | right; now left].
Qed.


(** The answer for [tea] arrives: the spinner goes although the request for
    [coffee] is still pending. *)
Lemma spinner_off_while_pending_example :
  Runs.shows_spinner two_in_flight = true
  /\ Runs.shows_spinner (step (Settle 1 (Response 200 tea_body)) two_in_flight) = false
  /\ In 0%nat (awaiting (step (Settle 1 (Response 200 tea_body)) two_in_flight)).
Proof.
  split; [reflexivity|].
  destruct two_in_flight_requests as (r0 & r1 & R0 & R1 & A0 & A1).
  destruct (Responses.spinner_off_while_pending 0 1 r0 r1 (Response 200 tea_body)
              two_in_flight ltac:(discriminate) A0 A1 R0 R1) as (H1 & H2 & _).
  now split.
Defined.

(** [coffee] is searched for and the box is cleared before the answer
    arrives: the answer for [coffee] is shown under the empty box. *)
Definition cleared_in_flight : State :=
  run [Edited (SearchChange "coffee"); Elapse 500;
       Edited (SearchChange EmptyString); Elapse 500] mounted.

Lemma late_response_is_shown_example :
  searchTerm (params cleared_in_flight) = EmptyString
  /\ results cleared_in_flight = []
  /\ results (step (Settle 0 (Response 200 sample_body)) cleared_in_flight)
     = [JObject [("text", JString "plain prose")]]
  /\ Runs.shows_results (step (Settle 0 (Response 200 sample_body)) cleared_in_flight)
     = true.
Proof.
  split; [reflexivity|]. split; [reflexivity|].
  assert (R0 : exists r, nth_error (sent cleared_in_flight) 0 = Some r)
    by (eexists; vm_compute; reflexivity).
  destruct R0 as [r0 R0].
  refine (Responses.late_response_is_shown 0 r0 (Response 200 sample_body) _
            cleared_in_flight _ R0 sample_body_delivers _ _).
  - vm_compute. now left.
  - discriminate.
  - reflexivity.
Defined.

(** ** The values the controls can produce *)

(** The dataset radio buttons offer [reviews] and [places]. *)
Definition ui_edit (e : Edit) : Prop :=
  match e with
  | DatasetChange d => d = "reviews" \/ d = "places"
  | _ => True
  end.

Definition ui_event (ev : Event) : Prop :=
  match ev with
  | Edited e => ui_edit e
  | _ => True
  end.

Definition six_parameters (r : Request) : Prop :=
  exists q encoded,
    searchTerm q <> EmptyString
    /\ URI.encodeURIComponent (searchTerm q) = Some encoded
    /\ Query.params_of (req_url r) =
         [("search", encoded);
          ("optimized", bool_text (fast q));
          ("limit", JSNumber.toString (limit q));
          ("threshold", JSNumber.toString (threshold q));
          ("speed", JSNumber.toString (speed q));
          ("dataset", dataset q)].

Definition ui_state (st : State) : Prop :=
  wf st
  /\ Chars.all_chars Query.plain (dataset (params st)) = true
  /\ Forall six_parameters (sent st).

Lemma ui_step (ev : Event) (st : State) :
  ui_event ev -> ui_state st -> ui_state (step ev st).
Proof.
  intros Hev (W & Hd & Hs). split; [now apply wf_step|]. split.
  - destruct ev as [e|dt|i o].
    + cbn [step]. unfold on_edit.
      destruct (same_params (params st) (apply_edit e (params st))); [exact Hd|].
      cbn. destruct e; cbn [apply_edit dataset]; try exact Hd.
      cbn in Hev. now destruct Hev as [-> | ->].
    + now rewrite step_params_elapse_settle by discriminate.
    + now rewrite step_params_elapse_settle by discriminate.
  - destruct (step_sent ev st W) as [E | (dt & t & encoded & _ & Hterm & Henc & E)];
      rewrite E; [exact Hs|].
    apply Forall_app. split; [exact Hs|]. constructor; [|constructor].
    exists (params st), encoded. split; [exact Hterm|]. split; [exact Henc|].
    apply UrlFacts.url_with_params; [|exact Hd].
    exact (UrlFacts.encodeURIComponent_plain _ _ Henc).
Qed.

(** Whatever is done with the controls, every request sent has exactly
    the six parameters [search], [optimized], [limit], [threshold], [speed]
    and [dataset], for a non-empty search term. *)
Theorem ui_requests_have_six_parameters (evs : list Event) (r : Request) :
  Forall ui_event evs ->
  In r (sent (run evs mounted)) ->
  six_parameters r.
Proof.
  intros Hevs Hr.
  assert (K : forall l st, Forall ui_event l -> ui_state st -> ui_state (run l st)).
  { induction l as [|ev l IH]; intros st Hl Hst; [exact Hst|].
    inversion Hl; subst. rewrite run_cons. apply IH; [assumption|].
    now apply ui_step. }
  destruct (K evs mounted Hevs) as (_ & _ & Hall).
  { split; [exact wf_mounted|]. split; [reflexivity | constructor]. }
  exact (proj1 (Forall_forall _ _) Hall r Hr).
Qed.

Lemma ui_requests_have_six_parameters_example :
  six_parameters
    (mkRequest (endpoint ++ "?search=a%26b&optimized=true&limit=10&threshold=0.5"
                         ++ "&speed=2&dataset=places") 800).
Proof.
  refine (ui_requests_have_six_parameters
            [Edited (SearchChange "a&b"); Edited FastToggle;
             Edited (DatasetChange "places"); Elapse 300;
             Edited (SpeedChange 2); Elapse 700] _ _ _).
  - repeat (apply Forall_cons; [cbn; auto|]). apply Forall_nil.
  - vm_compute. now left.
Defined.

(** ** Edits that change nothing *)

Lemma same_params_refl (q : QueryParams) : same_params q q = true.
Proof.
  unfold same_params.
  rewrite !String.eqb_refl, Bool.eqb_reflx.
  now rewrite !(proj2 (FloatAxioms.Leibniz.eqb_spec _ _) eq_refl).
Qed.

(** A handler that stores the value already held (clicking the speed
    button that is already selected, emptying a limit box that shows 1)
    does not restart the debounce window: a request that was due goes out
    at its original time, less than 500 ms after that last handler call. *)
Theorem noop_edit_keeps_deadline (e e' : Edit) (gap dt : Z) (encoded : string)
        (st : State) :
  same_params (params st) (apply_edit e (params st)) = false ->
  apply_edit e' (apply_edit e (params st)) = apply_edit e (params st) ->
  searchTerm (apply_edit e (params st)) <> EmptyString ->
  URI.encodeURIComponent (searchTerm (apply_edit e (params st))) = Some encoded ->
  gap < wait -> wait <= gap + dt ->
  sent (run [Edited e; Elapse gap; Edited e'; Elapse dt] st) =
    (sent st ++ [mkRequest (url_with encoded (apply_edit e (params st)))
                           (JSNumber.of_Z (now st + wait))])%list.
Proof.
  intros He He' Hterm Henc Hgap Hdt.
  rewrite !run_cons. cbn [run fold_left step].
  destruct (on_edit_armed e st He) as (Ha & Hp & Hs & Hn & _).
  rewrite (elapse_early gap _ Ha Hgap).
  assert (Hnoop : on_edit e' (setNow (now (on_edit e st) + gap) (on_edit e st))
                  = setNow (now (on_edit e st) + gap) (on_edit e st)).
  { unfold on_edit at 1. cbn [params setNow]. rewrite Hp, He'.
    now rewrite same_params_refl. }
  rewrite Hnoop. unfold elapse. cbn [timer setNow now]. rewrite Ha.
  destruct (Z.leb_spec (now (on_edit e st) + wait) (now (on_edit e st) + gap + dt));
    [|lia].
  cbn [sent setNow]. rewrite Hp.
  destruct (search_begin_sends (apply_edit e (params st)) encoded
              (setNow (now (on_edit e st) + wait)
                 (setTimer None (setNow (now (on_edit e st) + gap) (on_edit e st))))
              Hterm Henc) as [-> _].
  cbn [sent setNow setTimer]. rewrite Hs.
  unfold performance_now. cbn [now setNow setTimer]. now rewrite Hn.
Qed.

(** [tea] typed at 0, the selected speed clicked again at 400: the request
    leaves at 500. *)
Lemma noop_edit_keeps_deadline_example :
  sent (run [Edited (SearchChange "tea"); Elapse 400;
             Edited (SpeedChange 0); Elapse 100] mounted) =
    [mkRequest (endpoint ++ "?search=tea&optimized=false&limit=10&threshold=0.5"
                         ++ "&speed=0&dataset=reviews") 500].
Proof.
  pose proof (noop_edit_keeps_deadline (SearchChange "tea") (SpeedChange 0)
                400 100 "tea" mounted eq_refl eq_refl ltac:(discriminate) eq_refl
                ltac:(unfold wait; lia) ltac:(unfold wait; lia)) as H.
  vm_compute in H. vm_compute. exact H.
Defined.

(** ** Starting a request *)

(** When the timer fires for a non-empty term the spinner is turned on, the
    error message and the timing are cleared, and the results of the
    previous search stay in place (hidden by the spinner) until a response
    replaces them. *)
Theorem request_start_keeps_results (d dt : Z) (q : QueryParams) (encoded : string)
        (st : State) :
  timer st = Some (d, q) ->
  d <= now st + dt ->
  searchTerm q <> EmptyString ->
  URI.encodeURIComponent (searchTerm q) = Some encoded ->
  let st' := step (Elapse dt) st in
  loading st' = true /\ error st' = None /\ timingMetrics st' = None
  /\ results st' = results st
  /\ timer st' = None
  /\ Runs.shows_results st' = false /\ Runs.shows_timing st' = false.
Proof.
  intros Ht Hd Hterm Henc. cbn [step]. unfold elapse. rewrite Ht.
  destruct (Z.leb_spec d (now st + dt)); [|lia].
  destruct (search_begin_sends q encoded (setNow d (setTimer None st)) Hterm Henc)
    as (_ & Hl & He & Hm & Hr).
  unfold Runs.shows_results, Runs.shows_timing.
  cbn [loading error timingMetrics results timer setNow].
  rewrite Hl, He, Hm, Hr. repeat split.
  unfold search_begin. rewrite (nonempty_truthy _ Hterm), (url_encoded _ _ Henc).
  reflexivity.
Qed.

Lemma request_start_keeps_results_example :
  let st := run [Edited (SearchChange "tea")] Controller.shown in
  let st' := step (Elapse 500) st in
  results st = [JObject [("text", JString "plain prose")]]
  /\ loading st' = true /\ error st' = None /\ timingMetrics st' = None
  /\ results st' = results st
  /\ timer st' = None
  /\ Runs.shows_results st' = false /\ Runs.shows_timing st' = false.
Proof.
  split; [vm_compute; reflexivity|].
  exact (request_start_keeps_results 1000 500
           (mkParams "tea" 0.5 false 10 0 "reviews") "tea"
           (run [Edited (SearchChange "tea")] Controller.shown)
           ltac:(vm_compute; reflexivity) ltac:(vm_compute; discriminate)
           ltac:(discriminate) eq_refl).
Defined.

(** When the timer fires for a term that [encodeURIComponent] rejects (an
    unpaired surrogate), nothing is sent: the generic error is shown at
    once, the [URIError] is logged, and the spinner is not shown. *)
Theorem unencodable_term_reports_error (d dt : Z) (q : QueryParams) (st : State) :
  timer st = Some (d, q) ->
  d <= now st + dt ->
  searchTerm q <> EmptyString ->
  URI.encodeURIComponent (searchTerm q) = None ->
  let st' := step (Elapse dt) st in
  sent st' = sent st
  /\ error st' = Some failure_message
  /\ loading st' = false
  /\ results st' = results st
  /\ timingMetrics st' = None
  /\ console st' = (console st ++ [(log_label, URIError)])%list.
Proof.
  intros Ht Hd Hterm Henc. cbn [step]. unfold elapse. rewrite Ht.
  destruct (Z.leb_spec d (now st + dt)); [|lia].
  unfold search_begin, url. rewrite (nonempty_truthy _ Hterm), Henc.
  now repeat split.
Qed.

Lemma unencodable_term_reports_error_example :
  let st := run [Edited (SearchChange lone_surrogate)] Controller.shown in
  let st' := step (Elapse 500) st in
  sent st' = sent st
  /\ error st' = Some failure_message
  /\ loading st' = false
  /\ results st' = results st
  /\ timingMetrics st' = None
  /\ console st' = (console st ++ [(log_label, URIError)])%list.
Proof.
  exact (unencodable_term_reports_error 1000 500
           (mkParams lone_surrogate 0.5 false 10 0 "reviews")
           (run [Edited (SearchChange lone_surrogate)] Controller.shown)
           ltac:(vm_compute; reflexivity) ltac:(vm_compute; discriminate)
           ltac:(discriminate) ltac:(vm_compute; reflexivity)).
Defined.

(** Emptying the limit box (no number: NaN) or typing 0 in it. *)
Lemma limit_never_falsy_example :
  limit (params (run ([Edited (LimitChange 25)] ++ [Edited (LimitChange nan)])
                     mounted)) = 1%float
  /\ limit (params (run ([Edited (LimitChange 25)] ++ [Edited (LimitChange 0)])
                        mounted)) = 1%float.
Proof.
  split.
  - exact (proj2 (Runs.limit_never_falsy [Edited (LimitChange 25)]) nan eq_refl).
  - exact (proj2 (Runs.limit_never_falsy [Edited (LimitChange 25)]) 0%float eq_refl).
Defined.

End Controls.
